(** * XLA GPU backend: kernel constraint filter and dynamic concat lowering

    A shallow embedding of

    - [GpuOpFilter] from [tensorflow/compiler/tf2xla/xla_gpu_backend.cc],
      the per-backend filter that rewrites the type constraints of a
      [KernelDef] before the kernel is registered, and
    - the part of [ConcatBaseOp::Compile] from
      [tensorflow/compiler/tf2xla/kernels/concat_op.cc] that preserves a
      dynamic dimension on the concat axis,

    together with the properties the design document states about them. *)

From Stdlib Require Import List ZArith Bool String Lia.
Import ListNotations.
Local Open Scope string_scope.
Local Open Scope list_scope.
Local Open Scope Z_scope.

(** ** Element types

    [tensorflow::DataType] is declared in [types.proto], which is not among
    the sources at hand.  The tags below are the enumeration's value tags;
    the filter itself only names [DT_STRING] and [DT_FLOAT8_E4M3FN]. *)
Inductive DataType : Type :=
| DT_INVALID | DT_FLOAT | DT_DOUBLE | DT_INT32 | DT_UINT8 | DT_INT16
| DT_INT8 | DT_STRING | DT_COMPLEX64 | DT_INT64 | DT_BOOL | DT_QINT8
| DT_QUINT8 | DT_QINT32 | DT_BFLOAT16 | DT_QINT16 | DT_QUINT16 | DT_UINT16
| DT_COMPLEX128 | DT_HALF | DT_RESOURCE | DT_VARIANT | DT_UINT32 | DT_UINT64
| DT_FLOAT8_E5M2 | DT_FLOAT8_E4M3FN | DT_INT4 | DT_UINT4.

Definition DataType_eq_dec (a b : DataType) : {a = b} + {a <> b}.
Proof. decide equality. Defined.

(** ** Protocol-buffer messages of [kernel_def.proto]

    Each message is a module holding its record and the accessors the
    filter calls on it.  Only the fields the filter reaches are kept: the
    [type] list of an [AttrValue]'s [list], the [name] and
    [allowed_values] of a constraint, and the [op], [device_type] and
    [constraint] of a kernel definition. *)
Module ListValue.
Record t : Type := Build { type : list DataType }.

(** [type_size()] *)
Definition type_size (l : t) : Z := Z.of_nat (List.length (type l)).
(** [type(i)]; the filter only calls it below [type_size()]. *)
Definition type_at (l : t) (i : nat) : DataType := nth i (type l) DT_INVALID.
(** [clear_type()] *)
Definition clear_type (_ : t) : t := Build [].
(** [add_type(dtype)]: appends to the repeated field. *)
Definition add_type (dtype : DataType) (l : t) : t := Build (type l ++ [dtype]).
End ListValue.

Module AttrValue.
Record t : Type := Build { list : ListValue.t }.

(** [mutable_list()->f(...)]: update the list in place. *)
Definition mutable_list (f : ListValue.t -> ListValue.t) (v : t) : t :=
  Build (f (list v)).
End AttrValue.

Module AttrConstraint.
Record t : Type := Build { name : string; allowed_values : AttrValue.t }.

(** [mutable_allowed_values()->f(...)] *)
Definition mutable_allowed_values (f : AttrValue.t -> AttrValue.t) (c : t) : t :=
  Build (name c) (f (allowed_values c)).

(** The element types a constraint slot allows. *)
Definition types (c : t) : list DataType :=
  ListValue.type (AttrValue.list (allowed_values c)).
End AttrConstraint.

Module KernelDef.
Record t : Type := Build {
  op : string;
  device_type : string;
  constraint : list AttrConstraint.t
}.

(** [*mutable_constraint()] rewritten element by element, in order. *)
Definition mutable_constraint (f : AttrConstraint.t -> AttrConstraint.t) (k : t) : t :=
  Build (op k) (device_type k) (map f (constraint k)).
End KernelDef.

(** Modelled from the spec: [AddDtypeToKernelDefConstraint] is declared in
    [tf2xla_util.h] and defined outside the sources at hand.  The rule
    table asks that it "ensure the named ... constraint slot explicitly
    allows" the given element type: every constraint slot carrying the
    name gets the type added to its allowed values; other slots, and a
    definition without such a slot, are left as they are. *)
Definition AddDtypeToKernelDefConstraint
    (name : string) (dtype : DataType) (kdef : KernelDef.t) : KernelDef.t :=
  KernelDef.mutable_constraint
    (fun constraint =>
       if String.eqb (AttrConstraint.name constraint) name
       then AttrConstraint.mutable_allowed_values
              (AttrValue.mutable_list (ListValue.add_type dtype)) constraint
       else constraint)
    kdef.

Section GpuBackend.

(** [kGpuAllTypes], the element types the GPU backend is registered with
    ([REGISTER_XLA_BACKEND(DEVICE_GPU_XLA_JIT, kGpuAllTypes, GpuOpFilter)]).
    The array is declared in [xla_op_registry.h], outside the sources at
    hand, so it is a parameter of the development. *)
Variable kGpuAllTypes : list DataType.

(** The inner loop of the ConcatV2 rule:
    [for dtype in kGpuAllTypes: ...->mutable_list()->add_type(dtype)]. *)
Definition add_all_gpu_types (constraint : AttrConstraint.t) : AttrConstraint.t :=
  fold_left
    (fun c dtype =>
       AttrConstraint.mutable_allowed_values
         (AttrValue.mutable_list (ListValue.add_type dtype)) c)
    kGpuAllTypes constraint.

(** The test [type_list.type_size() == 1 && type_list.type(0) == DT_FLOAT8_E4M3FN]. *)
Definition only_float8_e4m3fn (type_list : ListValue.t) : bool :=
  (ListValue.type_size type_list =? 1)
  && (if DataType_eq_dec (ListValue.type_at type_list 0) DT_FLOAT8_E4M3FN
      then true else false).

(** Body of [for (auto& constraint : *kdef->mutable_constraint())]. *)
Definition widen_constraint (constraint : AttrConstraint.t) : AttrConstraint.t :=
  if String.eqb (AttrConstraint.name constraint) "T" then
    let type_list := AttrValue.list (AttrConstraint.allowed_values constraint) in
    if only_float8_e4m3fn type_list then
      add_all_gpu_types
        (AttrConstraint.mutable_allowed_values
           (AttrValue.mutable_list ListValue.clear_type) constraint)
    else constraint
  else constraint.

(** [bool GpuOpFilter(KernelDef* kdef)]: the returned flag paired with the
    definition as the in-place updates leave it. *)
Definition GpuOpFilter (kdef : KernelDef.t) : bool * KernelDef.t :=
  let kdef :=
    if String.eqb (KernelDef.op kdef) "Const"
    then AddDtypeToKernelDefConstraint "dtype" DT_STRING kdef else kdef in
  let kdef :=
    if String.eqb (KernelDef.op kdef) "Assert"
    then AddDtypeToKernelDefConstraint "T" DT_STRING kdef else kdef in
  let kdef :=
    if String.eqb (KernelDef.op kdef) "ConcatV2"
    then KernelDef.mutable_constraint widen_constraint kdef else kdef in
  (true, kdef).

End GpuBackend.

(** ** XLA shapes and status values

    [xla::Shape], [absl::Status] and the XLA builder live outside the
    sources at hand; they are embedded with the members the concat kernel
    calls. *)
Module Shape.
(** One axis: its static extent (an upper bound when the axis is
    dynamic) and the dynamic flag. *)
Record Dimension : Type := Dim { size : Z; is_dynamic : bool }.

Definition t : Type := list Dimension.

Definition rank (s : t) : Z := Z.of_nat (List.length s).

Definition at_axis (s : t) (axis : Z) : option Dimension :=
  if 0 <=? axis then nth_error s (Z.to_nat axis) else None.

(** [dimensions(axis)]: not defined outside the rank. *)
Definition dimensions (s : t) (axis : Z) : option Z :=
  option_map size (at_axis s axis).

(** [is_dynamic_dimension(axis)]: not defined outside the rank. *)
Definition is_dynamic_dimension (s : t) (axis : Z) : option bool :=
  option_map is_dynamic (at_axis s axis).

Fixpoint update (s : t) (n : nat) (f : Dimension -> Dimension) : t :=
  match s, n with
  | [], _ => []
  | d :: s', O => f d :: s'
  | d :: s', S n' => d :: update s' n' f
  end.

(** [set_dimensions(axis, value)] *)
Definition set_dimensions (s : t) (axis : Z) (value : Z) : t :=
  update s (Z.to_nat axis) (fun d => Dim value (is_dynamic d)).

(** [set_dynamic_dimension(axis, flag)] *)
Definition set_dynamic_dimension (s : t) (axis : Z) (flag : bool) : t :=
  update s (Z.to_nat axis) (fun d => Dim (size d) flag).
End Shape.

(** Error kinds, after the taxonomy of the design document. *)
Inductive Status : Type :=
| ConfigurationError
| ShapeInferenceError
| BackendCapabilityError
| OtherError (message : string).

Inductive StatusOr (A : Type) : Type :=
| OkValue (value : A)
| ErrorStatus (status : Status).
Arguments OkValue {A} value.
Arguments ErrorStatus {A} status.

(** Conversion of an [int64_t] to [int32_t] (two's complement). *)
Definition to_int32 (z : Z) : Z := (z + 2 ^ 31) mod 2 ^ 32 - 2 ^ 31.

(** ** The instructions the kernel emits

    An [XlaOp] is identified with the instruction it denotes, operands
    included; [Param n] stands for an operand lowered before the kernel
    runs and [Invalid] for a default-constructed handle. *)
#[warnings="-register-all"] Inductive XlaOp : Type :=
| Param (n : nat)
| Invalid
| HloConcatenate (operands : list XlaOp) (dimension : Z)
| HloGetDimensionSize (operand : XlaOp) (dimension : Z)
| HloConstant (value : Z)
| HloAdd (lhs rhs : XlaOp)
| HloSetDimensionSize (operand val : XlaOp) (dimension : Z).

(** The builder, as the sequence of instructions emitted so far. *)
Definition XlaBuilder : Type := list XlaOp.

Definition emit (instruction : XlaOp) (b : XlaBuilder) : XlaOp * XlaBuilder :=
  (instruction, b ++ [instruction]).

(** [xla::ConcatInDim(builder, operands, dimension)] *)
Definition ConcatInDim (operands : list XlaOp) (dimension : Z) (b : XlaBuilder) :=
  emit (HloConcatenate operands dimension) b.

(** [xla::GetDimensionSize(operand, dimension)] *)
Definition GetDimensionSize (operand : XlaOp) (dimension : Z) (b : XlaBuilder) :=
  emit (HloGetDimensionSize operand dimension) b.

(** [xla::ConstantR0<int32_t>(builder, value)]: the [int64_t] argument is
    converted to the [int32_t] the template is instantiated at. *)
Definition ConstantR0 (value : Z) (b : XlaBuilder) :=
  emit (HloConstant (to_int32 value)) b.

(** [xla::Add(lhs, rhs)] *)
Definition Add (lhs rhs : XlaOp) (b : XlaBuilder) :=
  emit (HloAdd lhs rhs) b.

(** [xla::SetDimensionSize(operand, val, dimension)] *)
Definition SetDimensionSize (operand val : XlaOp) (dimension : Z) (b : XlaBuilder) :=
  emit (HloSetDimensionSize operand val dimension) b.

(** ** [ConcatBaseOp::Compile], from [ConcatInDim] to [SetOutput] *)

(** What the kernel context holds when the fragment starts: the operand
    handles [input_data[i]] paired with what [ctx->InputXlaShape(i)]
    returns, the concat [axis], and the builder. *)
Record XlaOpKernelContext : Type := Context {
  inputs : list (XlaOp * StatusOr Shape.t);
  axis : Z;
  builder : XlaBuilder
}.

Definition input_data (ctx : XlaOpKernelContext) : list XlaOp := map fst (inputs ctx).
Definition N (ctx : XlaOpKernelContext) : Z := Z.of_nat (List.length (inputs ctx)).

(** How a run of the code ends: normally with a value and the builder, by
    an early return of [OP_REQUIRES_OK] with the failed status, or in a
    [Shape] accessor called outside the rank. *)
Inductive Result (A : Type) : Type :=
| Done (value : A) (b : XlaBuilder)
| RequiresFailed (status : Status) (b : XlaBuilder)
| OutOfBounds.
Arguments Done {A} value b.
Arguments RequiresFailed {A} status b.
Arguments OutOfBounds {A}.

(** The three locals the loop updates. *)
Record SizeSum : Type := Locals {
  any_input_dynamic : bool;
  dynamic_size_sum : XlaOp;
  size_sum_initialized : bool
}.

Definition initial_locals : SizeSum := Locals false Invalid false.

(** The tail of the loop body:
    [if (!size_sum_initialized) { sum = input_size; ... } else { sum = Add(sum, input_size); }] *)
Definition accumulate (any_dynamic : bool) (st : SizeSum) (input_size : XlaOp)
    (b : XlaBuilder) : SizeSum * XlaBuilder :=
  if negb (size_sum_initialized st) then
    (Locals any_dynamic input_size true, b)
  else
    let (sum, b) := Add (dynamic_size_sum st) input_size b in
    (Locals any_dynamic sum (size_sum_initialized st), b).

(** [for (int i = 0; i < N; ++i) { ... }], by recursion on the inputs
    still to visit. *)
Fixpoint size_loop (axis : Z) (rest : list (XlaOp * StatusOr Shape.t))
    (st : SizeSum) (b : XlaBuilder) : Result SizeSum :=
  match rest with
  | [] => Done st b
  | (input, input_shape_or) :: rest' =>
    match input_shape_or with
    | ErrorStatus status => RequiresFailed status b
    | OkValue input_shape =>
      match Shape.is_dynamic_dimension input_shape axis with
      | None => OutOfBounds
      | Some true =>
        let (input_size, b) := GetDimensionSize input axis b in
        let (st, b) := accumulate true st input_size b in
        size_loop axis rest' st b
      | Some false =>
        match Shape.dimensions input_shape axis with
        | None => OutOfBounds
        | Some extent =>
          let (input_size, b) := ConstantR0 extent b in
          let (st, b) := accumulate (any_input_dynamic st) st input_size b in
          size_loop axis rest' st b
        end
      end
    end
  end.

(** The fragment; [Done result b] is [ctx->SetOutput(0, result)]. *)
Definition Compile (ctx : XlaOpKernelContext) : Result XlaOp :=
  let (result, b) := ConcatInDim (input_data ctx) (axis ctx) (builder ctx) in
  match size_loop (axis ctx) (inputs ctx) initial_locals b with
  | RequiresFailed status b => RequiresFailed status b
  | OutOfBounds => OutOfBounds
  | Done st b =>
    if any_input_dynamic st && (0 <? N ctx) then
      let (result, b) := SetDimensionSize result (dynamic_size_sum st) (axis ctx) b in
      Done result b
    else Done result b
  end.

(** ** Shapes and run-time meaning of the emitted instructions *)

(** Sum of the static extents along [axis]; undefined when [axis] is
    outside the rank of one of the shapes. *)
Fixpoint sum_extents (shapes : list Shape.t) (axis : Z) : option Z :=
  match shapes with
  | [] => Some 0
  | s :: rest =>
    match Shape.dimensions s axis, sum_extents rest axis with
    | Some extent, Some total => Some (extent + total)
    | _, _ => None
    end
  end.

(** Modelled from the spec: the shape of the native combine instruction,
    whose shape inference is outside the sources at hand.  It produces "a
    provisional static shape (sum of static [axis] extents; other axes
    copied from any input)". *)
Definition ConcatInDim_shape (shapes : list Shape.t) (axis : Z) : option Shape.t :=
  match shapes with
  | [] => None
  | first :: _ =>
    match sum_extents shapes axis with
    | Some total =>
      Some (Shape.set_dynamic_dimension (Shape.set_dimensions first axis total) axis false)
    | None => None
    end
  end.

Fixpoint all_shapes (operand_shape : XlaOp -> option Shape.t) (operands : list XlaOp)
    : option (list Shape.t) :=
  match operands with
  | [] => Some []
  | o :: rest =>
    match operand_shape o, all_shapes operand_shape rest with
    | Some s, Some ss => Some (s :: ss)
    | _, _ => None
    end
  end.

(** Modelled from the spec: the shape metadata of a result, given the
    shapes of the operands lowered before.  Attaching an extent to an axis
    marks that axis dynamic ("attach the accumulated extent to the
    result's [axis] descriptor, marking it dynamic"). *)
Fixpoint GetShape (operand_shape : XlaOp -> option Shape.t) (op : XlaOp) : option Shape.t :=
  match op with
  | HloConcatenate operands dimension =>
    match all_shapes operand_shape operands with
    | Some shapes => ConcatInDim_shape shapes dimension
    | None => None
    end
  | HloSetDimensionSize operand _ dimension =>
    match GetShape operand_shape operand with
    | Some s =>
      if (0 <=? dimension) && (dimension <? Shape.rank s)
      then Some (Shape.set_dynamic_dimension s dimension true) else None
    | None => None
    end
  | _ => operand_shape op
  end.

(** Modelled from the spec: the value an extent computation has at run
    time.  [run_time_extent operand dimension] is the number of valid
    elements the operand has along the dimension when the program runs;
    the size query returns it as a 32-bit scalar, and the addition is
    32-bit addition. *)
Fixpoint eval_extent (run_time_extent : XlaOp -> Z -> option Z) (e : XlaOp) : option Z :=
  match e with
  | HloConstant value => Some value
  | HloGetDimensionSize operand dimension =>
    option_map to_int32 (run_time_extent operand dimension)
  | HloAdd lhs rhs =>
    match eval_extent run_time_extent lhs, eval_extent run_time_extent rhs with
    | Some x, Some y => Some (to_int32 (x + y))
    | _, _ => None
    end
  | _ => None
  end.

(** The extent annotation a result carries, if any. *)
Definition attached_extent (result : XlaOp) : option XlaOp :=
  match result with
  | HloSetDimensionSize _ val _ => Some val
  | _ => None
  end.

(** The actual extent of an input along [axis]: the fixed extent of a
    static axis, the run-time extent of a dynamic one. *)
Definition actual_extent (run_time_extent : XlaOp -> Z -> option Z) (axis : Z)
    (input : XlaOp * Shape.t) : option Z :=
  match Shape.at_axis (snd input) axis with
  | Some d =>
    if Shape.is_dynamic d then run_time_extent (fst input) axis else Some (Shape.size d)
  | None => None
  end.

Fixpoint sum_actual_extents (run_time_extent : XlaOp -> Z -> option Z) (axis : Z)
    (ins : list (XlaOp * Shape.t)) : option Z :=
  match ins with
  | [] => Some 0
  | input :: rest =>
    match actual_extent run_time_extent axis input,
          sum_actual_extents run_time_extent axis rest with
    | Some extent, Some total => Some (extent + total)
    | _, _ => None
    end
  end.

(** Whether an input is dynamic along [axis]. *)
Definition dynamic_along (axis : Z) (input : XlaOp * Shape.t) : bool :=
  match Shape.is_dynamic_dimension (snd input) axis with
  | Some flag => flag
  | None => false
  end.

(** The axis is a valid index into the input's shape. *)
Definition in_range (axis : Z) (input : XlaOp * Shape.t) : Prop :=
  0 <= axis < Shape.rank (snd input).

(** Inputs whose shapes are all available, as the context presents them. *)
Definition with_shapes (ins : list (XlaOp * Shape.t)) : list (XlaOp * StatusOr Shape.t) :=
  map (fun input => (fst input, OkValue (snd input))) ins.

(** *** The fold as the design document words it

    "For each input, obtain its run-time extent (a query instruction ...
    if dynamic, or a compile-time constant equal to the static extent
    otherwise); accumulate via run-time addition, left-to-right, starting
    from the first input's extent." *)
Definition extent_of (axis : Z) (input : XlaOp * Shape.t) : XlaOp :=
  match Shape.at_axis (snd input) axis with
  | Some d =>
    if Shape.is_dynamic d then HloGetDimensionSize (fst input) axis
    else HloConstant (to_int32 (Shape.size d))
  | None => Invalid
  end.

Definition fold_extents (axis : Z) (first : XlaOp * Shape.t)
    (rest : list (XlaOp * Shape.t)) : XlaOp :=
  fold_left (fun acc input => HloAdd acc (extent_of axis input)) rest (extent_of axis first).

(** The instructions the fold emits after an accumulator [acc], in order:
    for each further input its extent, then the addition. *)
Fixpoint fold_emits (axis : Z) (acc : XlaOp) (rest : list (XlaOp * Shape.t)) : list XlaOp :=
  match rest with
  | [] => []
  | input :: rest' =>
    let sum := HloAdd acc (extent_of axis input) in
    extent_of axis input :: sum :: fold_emits axis sum rest'
  end.

(** ** [CombineAlongAxis] *)

(** Modelled from the spec: the checks of [ConcatBaseOp::Compile] that
    precede the fragment are outside the sources at hand.  The design
    document requires that "all inputs have the same rank" and that
    "[axis] is a valid axis index for that rank". *)
Definition valid_ranks_and_axis (shapes : list Shape.t) (axis : Z) : bool :=
  match shapes with
  | [] => true
  | first :: rest =>
    (0 <=? axis) && (axis <? Shape.rank first)
    && forallb (fun s => Shape.rank s =? Shape.rank first) rest
  end.

(** Modelled from the spec: [CombineAlongAxis(inputs, axis)] "fails with a
    shape-inference error if input ranks disagree, or if [axis] is out of
    range", and otherwise runs the algorithm of [Compile]. *)
Definition CombineAlongAxis (ins : list (XlaOp * Shape.t)) (axis : Z) (b : XlaBuilder)
    : Result XlaOp :=
  if valid_ranks_and_axis (map snd ins) axis
  then Compile (Context (with_shapes ins) axis b)
  else RequiresFailed ShapeInferenceError b.

(** The value the attached extent of a finished run has at run time. *)
Definition computed_extent (run_time_extent : XlaOp -> Z -> option Z)
    (r : Result XlaOp) : option Z :=
  match r with
  | Done result _ =>
    match attached_extent result with
    | Some extent => eval_extent run_time_extent extent
    | None => None
    end
  | _ => None
  end.

(** ** Sample inputs *)

(** A supported-type list to instantiate [kGpuAllTypes] with. *)
Definition sample_gpu_types : list DataType :=
  [DT_UINT8; DT_INT8; DT_INT16; DT_INT32; DT_INT64; DT_HALF; DT_FLOAT;
   DT_DOUBLE; DT_BOOL; DT_BFLOAT16; DT_FLOAT8_E5M2; DT_FLOAT8_E4M3FN].

Definition constraint_of (name : string) (types : list DataType) : AttrConstraint.t :=
  AttrConstraint.Build name (AttrValue.Build (ListValue.Build types)).

(** A ConcatV2 kernel whose [T] slot holds only the placeholder type. *)
Definition concat_placeholder_kdef : KernelDef.t :=
  KernelDef.Build "ConcatV2" "XLA_GPU_JIT"
    [constraint_of "T" [DT_FLOAT8_E4M3FN]; constraint_of "Tidx" [DT_INT32]].

(** A ConcatV2 kernel whose [T] slot lists two types. *)
Definition concat_two_types_kdef : KernelDef.t :=
  KernelDef.Build "ConcatV2" "XLA_GPU_JIT"
    [constraint_of "T" [DT_FLOAT8_E4M3FN; DT_FLOAT]; constraint_of "Tidx" [DT_INT32]].

Definition const_kdef : KernelDef.t :=
  KernelDef.Build "Const" "XLA_GPU_JIT" [constraint_of "dtype" [DT_FLOAT; DT_INT32]].

Definition assert_kdef : KernelDef.t :=
  KernelDef.Build "Assert" "XLA_GPU_JIT" [constraint_of "T" [DT_FLOAT; DT_INT32]].

Definition matmul_kdef : KernelDef.t :=
  KernelDef.Build "MatMul" "XLA_GPU_JIT" [constraint_of "T" [DT_FLOAT; DT_HALF]].

(** A kernel definition with a slot that allows nothing. *)
Definition empty_slot_kdef : KernelDef.t :=
  KernelDef.Build "MatMul" "XLA_GPU_JIT" [constraint_of "T" []].

Definition static_dim (extent : Z) : Shape.Dimension := Shape.Dim extent false.
Definition dynamic_dim (bound : Z) : Shape.Dimension := Shape.Dim bound true.

(** Shapes [<=20, 64], [2, 64], [<=10, 64], concatenated on axis 0. *)
Definition dynamic_inputs : list (XlaOp * Shape.t) :=
  [(Param 0, [dynamic_dim 20; static_dim 64]);
   (Param 1, [static_dim 2; static_dim 64]);
   (Param 2, [dynamic_dim 10; static_dim 64])].

(** Run-time sizes 5 and 3 for the two dynamic inputs. *)
Definition dynamic_run_time (operand : XlaOp) (dimension : Z) : option Z :=
  match operand, dimension with
  | Param 0, 0 => Some 5
  | Param 2, 0 => Some 3
  | _, _ => None
  end.

Definition sample_operand_shape (ins : list (XlaOp * Shape.t)) (operand : XlaOp)
    : option Shape.t :=
  match operand with
  | Param n => option_map snd (nth_error ins n)
  | _ => None
  end.

(** Shapes [4, 8] and [6, 8], concatenated on axis 0. *)
Definition static_inputs : list (XlaOp * Shape.t) :=
  [(Param 0, [static_dim 4; static_dim 8]);
   (Param 1, [static_dim 6; static_dim 8])].

(** A dynamic input next to a static one of extent [2^31]. *)
Definition wide_inputs : list (XlaOp * Shape.t) :=
  [(Param 0, [dynamic_dim 20; static_dim 64]);
   (Param 1, [static_dim 2147483648; static_dim 64])].

Definition wide_run_time (operand : XlaOp) (dimension : Z) : option Z :=
  match operand, dimension with
  | Param 0, 0 => Some 5
  | _, _ => None
  end.

(** Ranks 2 and 1. *)
Definition mismatched_inputs : list (XlaOp * Shape.t) :=
  [(Param 0, [static_dim 4; static_dim 8]);
   (Param 1, [static_dim 6])].

(** ** Auxiliary notions for the further properties *)

(** An outcome with [b] put in front of its builder. *)
Definition prepend {A : Type} (b : XlaBuilder) (r : Result A) : Result A :=
  match r with
  | Done value e => Done value (b ++ e)
  | RequiresFailed status e => RequiresFailed status (b ++ e)
  | OutOfBounds => OutOfBounds
  end.

(** The instructions the loop emits for inputs it gets through: the first
    extent, then for each further input its extent and the addition. *)
Definition loop_emits (axis : Z) (ins : list (XlaOp * Shape.t)) : list XlaOp :=
  match ins with
  | [] => []
  | first :: rest => extent_of axis first :: fold_emits axis (extent_of axis first) rest
  end.

(** What the loop looks at in an input: the handle, whether the axis is
    dynamic and, for a static axis only, its extent. *)
Definition axis_view (axis : Z) (input : XlaOp * Shape.t) : option (XlaOp * bool * Z) :=
  match Shape.at_axis (snd input) axis with
  | Some d =>
    Some (fst input, Shape.is_dynamic d,
          if Shape.is_dynamic d then 0 else Shape.size d)
  | None => None
  end.

(** The locals after the loop has gone through [pre]. *)
Definition locals_after (axis : Z) (pre : list (XlaOp * Shape.t)) : SizeSum :=
  match pre with
  | [] => initial_locals
  | first :: rest =>
    Locals (existsb (dynamic_along axis) pre) (fold_extents axis first rest) true
  end.

(** A supported-type list without the placeholder type. *)
Definition gpu_types_without_float8 : list DataType :=
  [DT_INT32; DT_INT64; DT_HALF; DT_FLOAT; DT_DOUBLE; DT_BOOL].

(** [dynamic_inputs] with other bounds on the dynamic axes, other extents
    off the axis and one more axis on the last input. *)
Definition dynamic_inputs_reshaped : list (XlaOp * Shape.t) :=
  [(Param 0, [dynamic_dim 7; static_dim 32]);
   (Param 1, [static_dim 2; static_dim 64]);
   (Param 2, [dynamic_dim 1000; static_dim 64; static_dim 3])].

(** A context whose second input has no shape to offer. *)
Definition failing_inputs : list (XlaOp * StatusOr Shape.t) :=
  [(Param 0, OkValue [dynamic_dim 20; static_dim 64]);
   (Param 1, ErrorStatus (OtherError "no shape"));
   (Param 2, OkValue [static_dim 6])].

(** * Properties of the kernel constraint filter *)

Section GpuBackendProperties.

Variable kGpuAllTypes : list DataType.

(** Adding a run of types one by one appends the run. *)
Lemma add_types_fold (dtypes : list DataType) (c : AttrConstraint.t) :
  fold_left
    (fun c dtype =>
       AttrConstraint.mutable_allowed_values
         (AttrValue.mutable_list (ListValue.add_type dtype)) c)
    dtypes c
  = constraint_of (AttrConstraint.name c) (AttrConstraint.types c ++ dtypes).
Proof.
  revert c. induction dtypes as [|d dtypes IH]; intros [n [[ts]]]; simpl.
  - unfold constraint_of, AttrConstraint.types; simpl. now rewrite app_nil_r.
  - rewrite IH. unfold constraint_of, AttrConstraint.types; simpl.
    now rewrite <- app_assoc.
Qed.

Lemma only_float8_e4m3fn_iff (type_list : ListValue.t) :
  only_float8_e4m3fn type_list = true
  <-> ListValue.type type_list = [DT_FLOAT8_E4M3FN].
Proof.
  destruct type_list as [ts]. unfold only_float8_e4m3fn, ListValue.type_size,
    ListValue.type_at; simpl. split.
  - intros H. apply andb_true_iff in H as [Hsize Hfirst].
    apply Z.eqb_eq in Hsize.
    destruct ts as [|t [|t' ts]]; cbn [List.length] in Hsize; try lia.
    simpl in Hfirst.
    destruct (DataType_eq_dec t DT_FLOAT8_E4M3FN); congruence.
  - intros ->. reflexivity.
Qed.

(** The two ways the loop body of the ConcatV2 rule can go. *)
Lemma widen_constraint_placeholder (c : AttrConstraint.t) :
  AttrConstraint.name c = "T" ->
  AttrConstraint.types c = [DT_FLOAT8_E4M3FN] ->
  widen_constraint kGpuAllTypes c = constraint_of "T" kGpuAllTypes.
Proof.
  intros Hname Htypes. unfold widen_constraint.
  rewrite Hname. simpl.
  replace (only_float8_e4m3fn _) with true
    by (symmetry; now apply only_float8_e4m3fn_iff).
  unfold add_all_gpu_types. rewrite add_types_fold.
  destruct c as [n [[ts]]]; simpl in *. now subst.
Qed.

Lemma widen_constraint_other (c : AttrConstraint.t) :
  AttrConstraint.name c <> "T" \/ AttrConstraint.types c <> [DT_FLOAT8_E4M3FN] ->
  widen_constraint kGpuAllTypes c = c.
Proof.
  intros H. unfold widen_constraint.
  destruct (String.eqb_spec (AttrConstraint.name c) "T") as [Hname|Hname];
    [|reflexivity].
  destruct (only_float8_e4m3fn _) eqn:Honly; [|reflexivity].
  apply only_float8_e4m3fn_iff in Honly.
  destruct H as [H|H]; [contradiction|]. now elim H.
Qed.

(** The filter, rule by rule. *)
Lemma GpuOpFilter_ConcatV2 (kdef : KernelDef.t) :
  KernelDef.op kdef = "ConcatV2" ->
  GpuOpFilter kGpuAllTypes kdef
  = (true, KernelDef.mutable_constraint (widen_constraint kGpuAllTypes) kdef).
Proof. destruct kdef as [o d cs]; simpl; intros ->. reflexivity. Qed.

Lemma GpuOpFilter_Const (kdef : KernelDef.t) :
  KernelDef.op kdef = "Const" ->
  GpuOpFilter kGpuAllTypes kdef = (true, AddDtypeToKernelDefConstraint "dtype" DT_STRING kdef).
Proof. destruct kdef as [o d cs]; simpl; intros ->. reflexivity. Qed.

Lemma GpuOpFilter_Assert (kdef : KernelDef.t) :
  KernelDef.op kdef = "Assert" ->
  GpuOpFilter kGpuAllTypes kdef = (true, AddDtypeToKernelDefConstraint "T" DT_STRING kdef).
Proof. destruct kdef as [o d cs]; simpl; intros ->. reflexivity. Qed.

Lemma GpuOpFilter_other_op (kdef : KernelDef.t) :
  KernelDef.op kdef <> "Const" ->
  KernelDef.op kdef <> "Assert" ->
  KernelDef.op kdef <> "ConcatV2" ->
  GpuOpFilter kGpuAllTypes kdef = (true, kdef).
Proof.
  destruct kdef as [o d cs]; simpl; intros H1 H2 H3.
  apply String.eqb_neq in H1, H2, H3.
  unfold GpuOpFilter; simpl. rewrite H1; simpl.
  rewrite H2; simpl. now rewrite H3.
Qed.

Lemma mutable_constraint_fixed (f : AttrConstraint.t -> AttrConstraint.t)
    (kdef : KernelDef.t) :
  (forall c, In c (KernelDef.constraint kdef) -> f c = c) ->
  KernelDef.mutable_constraint f kdef = kdef.
Proof.
  destruct kdef as [o d cs]; unfold KernelDef.mutable_constraint; simpl.
  intros H. f_equal. rewrite <- (map_id cs) at 2. now apply map_ext_in.
Qed.

(** Every op name leaves a definition the filter does not reject. *)
Lemma GpuOpFilter_cases (kdef : KernelDef.t) :
  snd (GpuOpFilter kGpuAllTypes kdef) = AddDtypeToKernelDefConstraint "dtype" DT_STRING kdef
  \/ snd (GpuOpFilter kGpuAllTypes kdef) = AddDtypeToKernelDefConstraint "T" DT_STRING kdef
  \/ snd (GpuOpFilter kGpuAllTypes kdef)
     = KernelDef.mutable_constraint (widen_constraint kGpuAllTypes) kdef
  \/ snd (GpuOpFilter kGpuAllTypes kdef) = kdef.
Proof.
  destruct (string_dec (KernelDef.op kdef) "Const") as [H1|H1].
  { left. now rewrite GpuOpFilter_Const. }
  destruct (string_dec (KernelDef.op kdef) "Assert") as [H2|H2].
  { right; left. now rewrite GpuOpFilter_Assert. }
  destruct (string_dec (KernelDef.op kdef) "ConcatV2") as [H3|H3].
  { right; right; left. now rewrite GpuOpFilter_ConcatV2. }
  right; right; right. now rewrite GpuOpFilter_other_op.
Qed.

(** C1: in a ConcatV2 kernel definition, a slot named [T] whose allowed
    types are exactly the one-element list [DT_FLOAT8_E4M3FN] holds, after
    the filter, exactly [kGpuAllTypes]; with a non-empty [kGpuAllTypes]
    the slot is not empty. *)
Theorem GpuOpFilter_widens_placeholder
    (kdef : KernelDef.t) (i : nat) (c : AttrConstraint.t) :
  kGpuAllTypes <> [] ->
  KernelDef.op kdef = "ConcatV2" ->
  nth_error (KernelDef.constraint kdef) i = Some c ->
  AttrConstraint.name c = "T" ->
  AttrConstraint.types c = [DT_FLOAT8_E4M3FN] ->
  exists c',
    nth_error (KernelDef.constraint (snd (GpuOpFilter kGpuAllTypes kdef))) i = Some c'
    /\ AttrConstraint.name c' = "T"
    /\ AttrConstraint.types c' = kGpuAllTypes
    /\ AttrConstraint.types c' <> [].
Proof.
  intros Hne Hop Hnth Hname Htypes.
  rewrite (GpuOpFilter_ConcatV2 _ Hop). simpl.
  exists (constraint_of "T" kGpuAllTypes).
  rewrite nth_error_map, Hnth. simpl.
  rewrite (widen_constraint_placeholder _ Hname Htypes).
  repeat split; assumption.
Qed.

(** C4: a kernel definition that matches no rule (its op is neither
    [Const] nor [Assert], and if it is [ConcatV2] no [T] slot holds exactly
    the placeholder type) comes out of the filter unchanged, and a second
    run of the filter gives what the first gave. *)
Theorem GpuOpFilter_no_rule_noop (kdef : KernelDef.t) :
  KernelDef.op kdef <> "Const" ->
  KernelDef.op kdef <> "Assert" ->
  (KernelDef.op kdef = "ConcatV2" ->
   forall c, In c (KernelDef.constraint kdef) ->
             AttrConstraint.name c = "T" ->
             AttrConstraint.types c <> [DT_FLOAT8_E4M3FN]) ->
  snd (GpuOpFilter kGpuAllTypes kdef) = kdef
  /\ snd (GpuOpFilter kGpuAllTypes (snd (GpuOpFilter kGpuAllTypes kdef)))
     = snd (GpuOpFilter kGpuAllTypes kdef).
Proof.
  intros H1 H2 H3.
  assert (Hnoop : snd (GpuOpFilter kGpuAllTypes kdef) = kdef).
  { destruct (string_dec (KernelDef.op kdef) "ConcatV2") as [Hop|Hop].
    - rewrite (GpuOpFilter_ConcatV2 _ Hop). simpl.
      apply mutable_constraint_fixed. intros c Hin.
      apply widen_constraint_other.
      destruct (string_dec (AttrConstraint.name c) "T") as [Hn|Hn]; [|now left].
      right. now apply (H3 Hop c).
    - now rewrite GpuOpFilter_other_op. }
  split; [exact Hnoop|]. now rewrite Hnoop.
Qed.

(** C6: for a [Const] kernel definition every slot named [dtype], and for
    an [Assert] kernel definition every slot named [T], is still there
    after the filter and allows [DT_STRING]. *)
Theorem GpuOpFilter_allows_string
    (kdef : KernelDef.t) (slot : string) (i : nat) (c : AttrConstraint.t) :
  (KernelDef.op kdef = "Const" /\ slot = "dtype")
  \/ (KernelDef.op kdef = "Assert" /\ slot = "T") ->
  nth_error (KernelDef.constraint kdef) i = Some c ->
  AttrConstraint.name c = slot ->
  exists c',
    nth_error (KernelDef.constraint (snd (GpuOpFilter kGpuAllTypes kdef))) i = Some c'
    /\ AttrConstraint.name c' = slot
    /\ In DT_STRING (AttrConstraint.types c').
Proof.
  intros Hrule Hnth Hname.
  assert (Hrun : snd (GpuOpFilter kGpuAllTypes kdef)
                 = AddDtypeToKernelDefConstraint slot DT_STRING kdef).
  { destruct Hrule as [[Hop ->]|[Hop ->]].
    - now rewrite GpuOpFilter_Const.
    - now rewrite GpuOpFilter_Assert. }
  rewrite Hrun. unfold AddDtypeToKernelDefConstraint; simpl.
  rewrite nth_error_map, Hnth; simpl.
  rewrite Hname, String.eqb_refl.
  eexists; split; [reflexivity|]. split; [exact Hname|].
  unfold AttrConstraint.types; simpl. apply in_or_app; right; now left.
Qed.

(** C7: the filter returns [true] for every kernel definition. *)
Theorem GpuOpFilter_returns_true (kdef : KernelDef.t) :
  fst (GpuOpFilter kGpuAllTypes kdef) = true.
Proof. reflexivity. Qed.

Lemma AddDtype_nonempty (slot : string) (dtype : DataType) (kdef : KernelDef.t) :
  (forall c, In c (KernelDef.constraint kdef) -> AttrConstraint.types c <> []) ->
  forall c', In c' (KernelDef.constraint
                      (AddDtypeToKernelDefConstraint slot dtype kdef)) ->
             AttrConstraint.types c' <> [].
Proof.
  intros Hall c' Hin. unfold AddDtypeToKernelDefConstraint in Hin; simpl in Hin.
  apply in_map_iff in Hin as [c [<- Hc]].
  destruct (String.eqb _ slot); [|now apply Hall].
  unfold AttrConstraint.types; simpl. intros Habs.
  now apply app_eq_nil in Habs as [_ Habs].
Qed.

(** C8, as the code has it: the filter keeps non-emptiness.  If
    [kGpuAllTypes] is non-empty and every slot of the definition allows at
    least one type before the filter, every slot allows at least one type
    after it; the ConcatV2 rule, which clears a placeholder [T] list
    before refilling it, leaves that list equal to [kGpuAllTypes]; and the
    filter returns [true], it raises no error of its own. *)
Theorem GpuOpFilter_preserves_nonempty (kdef : KernelDef.t) :
  kGpuAllTypes <> [] ->
  (forall c, In c (KernelDef.constraint kdef) -> AttrConstraint.types c <> []) ->
  fst (GpuOpFilter kGpuAllTypes kdef) = true
  /\ (forall c',
        In c' (KernelDef.constraint (snd (GpuOpFilter kGpuAllTypes kdef))) ->
        AttrConstraint.types c' <> [])
  /\ (KernelDef.op kdef = "ConcatV2" ->
      forall i c,
        nth_error (KernelDef.constraint kdef) i = Some c ->
        AttrConstraint.name c = "T" ->
        AttrConstraint.types c = [DT_FLOAT8_E4M3FN] ->
        option_map AttrConstraint.types
          (nth_error (KernelDef.constraint (snd (GpuOpFilter kGpuAllTypes kdef))) i)
        = Some kGpuAllTypes).
Proof.
  intros Hne Hall. split; [reflexivity|]. split.
  - destruct (GpuOpFilter_cases kdef) as [H|[H|[H|H]]]; rewrite H.
    + now apply AddDtype_nonempty.
    + now apply AddDtype_nonempty.
    + simpl. intros c' Hin. apply in_map_iff in Hin as [c [<- Hc]].
      destruct (string_dec (AttrConstraint.name c) "T") as [Hn|Hn].
      * destruct (list_eq_dec DataType_eq_dec (AttrConstraint.types c)
                    [DT_FLOAT8_E4M3FN]) as [Ht|Ht].
        -- now rewrite (widen_constraint_placeholder _ Hn Ht).
        -- rewrite widen_constraint_other by now right. now apply Hall.
      * rewrite widen_constraint_other by now left. now apply Hall.
    + exact Hall.
  - intros Hop i c Hnth Hname Htypes.
    rewrite (GpuOpFilter_ConcatV2 _ Hop). simpl.
    rewrite nth_error_map, Hnth. simpl.
    now rewrite (widen_constraint_placeholder _ Hname Htypes).
Qed.

(** C10: in a ConcatV2 kernel definition the filter rewrites nothing but
    the [T] slots that hold exactly [DT_FLOAT8_E4M3FN].  A slot with
    another name, or a [T] slot whose list is anything else (another
    single type, two or more types, none), stays at its position as it
    was; the op, the device type and the number of slots stay too. *)
Theorem GpuOpFilter_ConcatV2_frame
    (kdef : KernelDef.t) (i : nat) (c : AttrConstraint.t) :
  KernelDef.op kdef = "ConcatV2" ->
  nth_error (KernelDef.constraint kdef) i = Some c ->
  AttrConstraint.name c <> "T" \/ AttrConstraint.types c <> [DT_FLOAT8_E4M3FN] ->
  nth_error (KernelDef.constraint (snd (GpuOpFilter kGpuAllTypes kdef))) i = Some c
  /\ KernelDef.op (snd (GpuOpFilter kGpuAllTypes kdef)) = KernelDef.op kdef
  /\ KernelDef.device_type (snd (GpuOpFilter kGpuAllTypes kdef)) = KernelDef.device_type kdef
  /\ List.length (KernelDef.constraint (snd (GpuOpFilter kGpuAllTypes kdef)))
     = List.length (KernelDef.constraint kdef).
Proof.
  intros Hop Hnth Hother.
  rewrite (GpuOpFilter_ConcatV2 _ Hop). simpl.
  rewrite nth_error_map, Hnth, length_map. simpl.
  now rewrite (widen_constraint_other _ Hother).
Qed.

End GpuBackendProperties.

(** * Properties of the concat kernel *)

(** ** 32-bit arithmetic *)

Lemma to_int32_range (z : Z) : - 2 ^ 31 <= to_int32 z < 2 ^ 31.
Proof.
  unfold to_int32.
  pose proof (Z.mod_pos_bound (z + 2 ^ 31) (2 ^ 32) ltac:(lia)). lia.
Qed.

Lemma to_int32_small (z : Z) : - 2 ^ 31 <= z < 2 ^ 31 -> to_int32 z = z.
Proof.
  intros H. unfold to_int32. rewrite Z.mod_small; lia.
Qed.

Lemma to_int32_shift (z c : Z) :
  (to_int32 z + c) mod 2 ^ 32 = (z + c) mod 2 ^ 32.
Proof.
  unfold to_int32.
  replace ((z + 2 ^ 31) mod 2 ^ 32 - 2 ^ 31 + c)
    with ((z + 2 ^ 31) mod 2 ^ 32 + (c - 2 ^ 31)) by lia.
  rewrite Zplus_mod_idemp_l. f_equal. lia.
Qed.

Lemma to_int32_add (x y : Z) :
  to_int32 (to_int32 x + to_int32 y) = to_int32 (x + y).
Proof.
  unfold to_int32 at 1. rewrite <- Z.add_assoc, to_int32_shift.
  rewrite (Z.add_comm x), <- Z.add_assoc, to_int32_shift.
  unfold to_int32. do 2 f_equal. lia.
Qed.

(** ** Shape accessors *)

Lemma at_axis_Some (s : Shape.t) (axis : Z) :
  0 <= axis < Shape.rank s <-> exists d, Shape.at_axis s axis = Some d.
Proof.
  unfold Shape.at_axis, Shape.rank. split.
  - intros [H0 H1]. destruct (Z.leb_spec 0 axis); [|lia].
    destruct (nth_error s (Z.to_nat axis)) eqn:E; [eauto|].
    apply nth_error_None in E. lia.
  - intros [d H]. destruct (Z.leb_spec 0 axis); [|discriminate].
    assert (Hlt : (Z.to_nat axis < List.length s)%nat)
      by (apply nth_error_Some; congruence).
    lia.
Qed.

Lemma update_length (s : Shape.t) (n : nat) (f : Shape.Dimension -> Shape.Dimension) :
  List.length (Shape.update s n f) = List.length s.
Proof.
  revert n; induction s as [|d s IH]; intros [|n]; simpl; auto.
Qed.

Lemma nth_error_update (s : Shape.t) (n : nat) (f : Shape.Dimension -> Shape.Dimension) :
  nth_error (Shape.update s n f) n = option_map f (nth_error s n).
Proof.
  revert n; induction s as [|d s IH]; intros [|n]; simpl; auto.
Qed.

Lemma at_axis_update (s : Shape.t) (axis : Z) (f : Shape.Dimension -> Shape.Dimension) :
  Shape.at_axis (Shape.update s (Z.to_nat axis) f) axis
  = option_map f (Shape.at_axis s axis).
Proof.
  unfold Shape.at_axis. destruct (0 <=? axis); [|reflexivity].
  apply nth_error_update.
Qed.

(** ** The loop *)

Lemma at_axis_accessors (s : Shape.t) (axis : Z) (d : Shape.Dimension) :
  Shape.at_axis s axis = Some d ->
  Shape.is_dynamic_dimension s axis = Some (Shape.is_dynamic d)
  /\ Shape.dimensions s axis = Some (Shape.size d).
Proof.
  intros H. unfold Shape.is_dynamic_dimension, Shape.dimensions.
  now rewrite H.
Qed.

Lemma at_axis_input (axis : Z) (input : XlaOp) (shape : Shape.t) (d : Shape.Dimension) :
  Shape.at_axis shape axis = Some d ->
  dynamic_along axis (input, shape) = Shape.is_dynamic d
  /\ extent_of axis (input, shape)
     = if Shape.is_dynamic d then HloGetDimensionSize input axis
       else HloConstant (to_int32 (Shape.size d)).
Proof.
  intros H. unfold dynamic_along, extent_of, Shape.is_dynamic_dimension.
  cbn [fst snd]. now rewrite H.
Qed.

(** Once the sum is initialised, each further input emits its extent and
    one addition, and the sum grows on the right. *)
Lemma size_loop_initialized (axis : Z) (rest : list (XlaOp * Shape.t)) :
  Forall (in_range axis) rest ->
  forall (any : bool) (sum : XlaOp) (b : XlaBuilder),
    size_loop axis (with_shapes rest) (Locals any sum true) b
    = Done (Locals (any || existsb (dynamic_along axis) rest)
                   (fold_left (fun acc input => HloAdd acc (extent_of axis input))
                              rest sum)
                   true)
           (b ++ fold_emits axis sum rest).
Proof.
  induction 1 as [|[input shape] rest Hin _ IH]; intros any sum b.
  - simpl. now rewrite orb_false_r, app_nil_r.
  - apply at_axis_Some in Hin as [[extent dyn] Hd]. cbn [snd] in Hd.
    destruct (at_axis_accessors _ _ _ Hd) as [Hdyn Hdim].
    destruct (at_axis_input axis input _ _ Hd) as [Halong Hext].
    cbn [with_shapes map size_loop fst snd existsb fold_left fold_emits].
    rewrite Hdyn, Hdim, Halong, Hext. fold (with_shapes rest).
    cbn [Shape.is_dynamic Shape.size].
    destruct dyn.
    + cbn [GetDimensionSize emit accumulate size_sum_initialized negb
             dynamic_size_sum Add].
      rewrite IH, orb_true_r, <- !app_assoc. reflexivity.
    + cbn [ConstantR0 emit accumulate size_sum_initialized negb
             dynamic_size_sum Add any_input_dynamic].
      rewrite IH, orb_false_l, <- !app_assoc. reflexivity.
Qed.

(** The whole loop, from the initial locals. *)
Lemma size_loop_initial (axis : Z) (first : XlaOp * Shape.t)
    (rest : list (XlaOp * Shape.t)) (b : XlaBuilder) :
  Forall (in_range axis) (first :: rest) ->
  size_loop axis (with_shapes (first :: rest)) initial_locals b
  = Done (Locals (existsb (dynamic_along axis) (first :: rest))
                 (fold_extents axis first rest) true)
         (b ++ extent_of axis first :: fold_emits axis (extent_of axis first) rest).
Proof.
  intros H. inversion H as [|x l Hin Hrest]; subst.
  destruct first as [input shape].
  apply at_axis_Some in Hin as [[extent dyn] Hd]. cbn [snd] in Hd.
  destruct (at_axis_accessors _ _ _ Hd) as [Hdyn Hdim].
  destruct (at_axis_input axis input _ _ Hd) as [Halong Hext].
  unfold fold_extents.
  cbn [with_shapes map size_loop fst snd existsb].
  rewrite Hdyn, Hdim, Halong, Hext. fold (with_shapes rest).
  cbn [Shape.is_dynamic Shape.size].
  destruct dyn.
  - cbn [GetDimensionSize emit accumulate size_sum_initialized negb
           initial_locals].
    rewrite (size_loop_initialized _ _ Hrest), <- app_assoc. reflexivity.
  - cbn [ConstantR0 emit accumulate size_sum_initialized negb initial_locals
           any_input_dynamic].
    rewrite (size_loop_initialized _ _ Hrest), <- app_assoc. reflexivity.
Qed.

Lemma map_fst_with_shapes (ins : list (XlaOp * Shape.t)) :
  map fst (with_shapes ins) = map fst ins.
Proof. unfold with_shapes. rewrite map_map. reflexivity. Qed.

(** ** The fragment on inputs whose axis is within every rank *)

(** [Compile] with the context taken apart. *)
Lemma Compile_unfold (ins : list (XlaOp * StatusOr Shape.t)) (ax : Z) (b : XlaBuilder) :
  Compile (Context ins ax b)
  = let concat := HloConcatenate (map fst ins) ax in
    match size_loop ax ins initial_locals (b ++ [concat]) with
    | RequiresFailed status b' => RequiresFailed status b'
    | OutOfBounds => OutOfBounds
    | Done st b' =>
      if any_input_dynamic st && (0 <? Z.of_nat (List.length ins)) then
        let result := HloSetDimensionSize concat (dynamic_size_sum st) ax in
        Done result (b' ++ [result])
      else Done concat b'
    end.
Proof. reflexivity. Qed.

Lemma Compile_in_range (axis : Z) (first : XlaOp * Shape.t)
    (rest : list (XlaOp * Shape.t)) (b : XlaBuilder) :
  Forall (in_range axis) (first :: rest) ->
  Compile (Context (with_shapes (first :: rest)) axis b)
  = let concat := HloConcatenate (map fst (first :: rest)) axis in
    let emitted :=
      b ++ concat :: extent_of axis first
        :: fold_emits axis (extent_of axis first) rest in
    if existsb (dynamic_along axis) (first :: rest) then
      let result := HloSetDimensionSize concat (fold_extents axis first rest) axis in
      Done result (emitted ++ [result])
    else Done concat emitted.
Proof.
  intros H. rewrite Compile_unfold. cbv zeta.
  rewrite map_fst_with_shapes, (size_loop_initial _ _ _ _ H).
  cbn [any_input_dynamic dynamic_size_sum].
  replace (0 <? Z.of_nat (List.length (with_shapes (first :: rest)))) with true
    by (symmetry; apply Z.ltb_lt; simpl; lia).
  rewrite andb_true_r.
  destruct (existsb (dynamic_along axis) (first :: rest));
    rewrite <- ?app_assoc; reflexivity.
Qed.

(** C5: with a dynamic input among them, the extents of the inputs are
    added up by a left-to-right fold that starts from the first input's
    extent and takes the inputs in the order given; the builder receives
    the concat, then the first extent, then for each further input its
    extent followed by the addition, then the size annotation. *)
Theorem Compile_folds_left_to_right (axis : Z) (first : XlaOp * Shape.t)
    (rest : list (XlaOp * Shape.t)) (b : XlaBuilder) :
  Forall (in_range axis) (first :: rest) ->
  existsb (dynamic_along axis) (first :: rest) = true ->
  let concat := HloConcatenate (map fst (first :: rest)) axis in
  let sum :=
    fold_left (fun acc input => HloAdd acc (extent_of axis input))
              rest (extent_of axis first) in
  Compile (Context (with_shapes (first :: rest)) axis b)
  = Done (HloSetDimensionSize concat sum axis)
         (b ++ [concat] ++ [extent_of axis first]
            ++ fold_emits axis (extent_of axis first) rest
            ++ [HloSetDimensionSize concat sum axis]).
Proof.
  intros Hrange Hdyn. rewrite (Compile_in_range _ _ _ _ Hrange), Hdyn.
  cbv zeta. unfold fold_extents. f_equal.
  rewrite <- ?app_assoc. reflexivity.
Qed.

(** ** Run-time value of the accumulated extent *)

Lemma eval_extent_of (run_time_extent : XlaOp -> Z -> option Z) (axis : Z)
    (input : XlaOp * Shape.t) (extent : Z) :
  actual_extent run_time_extent axis input = Some extent ->
  eval_extent run_time_extent (extent_of axis input) = Some (to_int32 extent).
Proof.
  unfold actual_extent, extent_of.
  destruct (Shape.at_axis (snd input) axis) as [[size dyn]|]; [|discriminate].
  cbn [Shape.is_dynamic Shape.size]. destruct dyn; simpl.
  - now intros ->.
  - now intros [= ->].
Qed.

Lemma eval_fold_left (run_time_extent : XlaOp -> Z -> option Z) (axis : Z)
    (rest : list (XlaOp * Shape.t)) :
  forall (acc : XlaOp) (w total : Z),
    eval_extent run_time_extent acc = Some (to_int32 w) ->
    sum_actual_extents run_time_extent axis rest = Some total ->
    eval_extent run_time_extent
      (fold_left (fun acc input => HloAdd acc (extent_of axis input)) rest acc)
    = Some (to_int32 (w + total)).
Proof.
  induction rest as [|input rest IH]; intros acc w total Hacc Hsum; simpl in *.
  - injection Hsum as <-. now rewrite Z.add_0_r.
  - destruct (actual_extent run_time_extent axis input) as [extent|] eqn:He;
      [|discriminate].
    destruct (sum_actual_extents run_time_extent axis rest) as [t|] eqn:Ht;
      [|discriminate].
    injection Hsum as <-.
    rewrite (IH (HloAdd acc (extent_of axis input)) (w + extent) t); auto.
    + f_equal. f_equal. lia.
    + simpl. rewrite Hacc, (eval_extent_of _ _ _ _ He). now rewrite to_int32_add.
Qed.

Lemma sum_actual_extents_in_range (run_time_extent : XlaOp -> Z -> option Z)
    (axis : Z) (ins : list (XlaOp * Shape.t)) (total : Z) :
  sum_actual_extents run_time_extent axis ins = Some total ->
  Forall (in_range axis) ins.
Proof.
  revert total. induction ins as [|input ins IH]; intros total H; constructor;
    simpl in H.
  - unfold in_range. apply at_axis_Some. unfold actual_extent in H.
    destruct (Shape.at_axis (snd input) axis); [eauto|discriminate].
  - destruct (actual_extent run_time_extent axis input); [|discriminate].
    destruct (sum_actual_extents run_time_extent axis ins) eqn:E; [|discriminate].
    eapply IH; reflexivity.
Qed.

(** ** Shape of the result *)

Lemma all_shapes_inputs (operand_shape : XlaOp -> option Shape.t)
    (ins : list (XlaOp * Shape.t)) :
  Forall (fun input => operand_shape (fst input) = Some (snd input)) ins ->
  all_shapes operand_shape (map fst ins) = Some (map snd ins).
Proof.
  induction 1 as [|input ins H _ IH]; simpl; [reflexivity|].
  now rewrite H, IH.
Qed.

Lemma sum_extents_in_range (axis : Z) (ins : list (XlaOp * Shape.t)) :
  Forall (in_range axis) ins ->
  exists total, sum_extents (map snd ins) axis = Some total.
Proof.
  induction 1 as [|input ins H _ [t IH]]; simpl; [eauto|].
  apply at_axis_Some in H as [d Hd].
  destruct (at_axis_accessors _ _ _ Hd) as [_ Hdim].
  rewrite Hdim, IH. eauto.
Qed.

(** The shape of the bare concat: the first input's shape with the summed
    static extent on the axis, marked static there. *)
Lemma GetShape_concat (operand_shape : XlaOp -> option Shape.t) (axis : Z)
    (first : XlaOp * Shape.t) (rest : list (XlaOp * Shape.t)) :
  Forall (fun input => operand_shape (fst input) = Some (snd input)) (first :: rest) ->
  Forall (in_range axis) (first :: rest) ->
  exists total s,
    sum_extents (map snd (first :: rest)) axis = Some total
    /\ GetShape operand_shape (HloConcatenate (map fst (first :: rest)) axis) = Some s
    /\ Shape.rank s = Shape.rank (snd first)
    /\ Shape.dimensions s axis = Some total
    /\ Shape.is_dynamic_dimension s axis = Some false.
Proof.
  intros Hshape Hrange.
  destruct (sum_extents_in_range _ _ Hrange) as [total Htotal].
  cbn [GetShape]. rewrite (all_shapes_inputs _ _ Hshape).
  unfold ConcatInDim_shape. cbn [map] in *. rewrite Htotal.
  exists total. eexists. split; [reflexivity|]. split; [reflexivity|].
  inversion Hrange as [|x l Hfirst _]; subst.
  apply at_axis_Some in Hfirst as [d Hd].
  unfold Shape.set_dynamic_dimension, Shape.set_dimensions, Shape.rank,
    Shape.dimensions, Shape.is_dynamic_dimension.
  rewrite !update_length, !at_axis_update, Hd. auto.
Qed.

(** Attaching an extent marks the axis dynamic. *)
Lemma GetShape_SetDimensionSize (operand_shape : XlaOp -> option Shape.t)
    (operand val : XlaOp) (axis : Z) (s : Shape.t) :
  GetShape operand_shape operand = Some s ->
  0 <= axis < Shape.rank s ->
  exists s',
    GetShape operand_shape (HloSetDimensionSize operand val axis) = Some s'
    /\ Shape.is_dynamic_dimension s' axis = Some true.
Proof.
  intros Hs Hrange. cbn [GetShape]. rewrite Hs.
  replace ((0 <=? axis) && (axis <? Shape.rank s)) with true
    by (symmetry; apply andb_true_iff; split;
        [apply Z.leb_le|apply Z.ltb_lt]; lia).
  eexists; split; [reflexivity|].
  apply at_axis_Some in Hrange as [d Hd].
  unfold Shape.set_dynamic_dimension, Shape.is_dynamic_dimension.
  now rewrite at_axis_update, Hd.
Qed.

(** ** Dynamic inputs *)

(** C2, as the code has it: when an input is dynamic along the axis, the
    result is the concat with a size annotation on the axis, its shape is
    marked dynamic there, and the annotated extent evaluates to the sum of
    the inputs' actual extents (the fixed extent of a static input, the
    run-time extent of a dynamic one) computed in signed 32-bit
    arithmetic: it is that sum reduced to 32 bits, and the sum itself
    whenever the sum lies within the 32-bit range. *)
Theorem Compile_dynamic_extent
    (operand_shape : XlaOp -> option Shape.t)
    (run_time_extent : XlaOp -> Z -> option Z)
    (axis : Z) (ins : list (XlaOp * Shape.t)) (b : XlaBuilder) (total : Z) :
  Forall (fun input => operand_shape (fst input) = Some (snd input)) ins ->
  existsb (dynamic_along axis) ins = true ->
  sum_actual_extents run_time_extent axis ins = Some total ->
  exists extent b' s,
    Compile (Context (with_shapes ins) axis b)
    = Done (HloSetDimensionSize (HloConcatenate (map fst ins) axis) extent axis) b'
    /\ GetShape operand_shape
         (HloSetDimensionSize (HloConcatenate (map fst ins) axis) extent axis)
       = Some s
    /\ Shape.is_dynamic_dimension s axis = Some true
    /\ computed_extent run_time_extent (Compile (Context (with_shapes ins) axis b))
       = Some (to_int32 total)
    /\ (- 2 ^ 31 <= total < 2 ^ 31 ->
        computed_extent run_time_extent (Compile (Context (with_shapes ins) axis b))
        = Some total).
Proof.
  intros Hshape Hdyn Hsum.
  pose proof (sum_actual_extents_in_range _ _ _ _ Hsum) as Hrange.
  destruct ins as [|first rest]; [discriminate|].
  rewrite (Compile_in_range _ _ _ b Hrange), Hdyn. cbv zeta.
  destruct (GetShape_concat _ _ _ _ Hshape Hrange)
    as (t & s & _ & Hs & Hrank & _ & _).
  assert (Haxis : 0 <= axis < Shape.rank s).
  { rewrite Hrank. now inversion Hrange. }
  destruct (GetShape_SetDimensionSize operand_shape _
              (fold_extents axis first rest) _ _ Hs Haxis) as (s' & Hs' & Hmark).
  assert (Hvalue : eval_extent run_time_extent (fold_extents axis first rest)
                   = Some (to_int32 total)).
  { simpl in Hsum.
    destruct (actual_extent run_time_extent axis first) as [e|] eqn:He;
      [|discriminate].
    destruct (sum_actual_extents run_time_extent axis rest) as [t'|] eqn:Ht;
      [|discriminate].
    injection Hsum as <-.
    apply eval_fold_left; [|assumption]. now apply eval_extent_of. }
  exists (fold_extents axis first rest). eexists. exists s'.
  split; [reflexivity|]. split; [exact Hs'|]. split; [exact Hmark|].
  cbn [computed_extent attached_extent]. split; [exact Hvalue|].
  intros Hfit. now rewrite Hvalue, to_int32_small.
Qed.

(** ** Static inputs *)

Lemma fold_emits_length (axis : Z) (rest : list (XlaOp * Shape.t)) (acc : XlaOp) :
  List.length (fold_emits axis acc rest) = (2 * List.length rest)%nat.
Proof.
  revert acc; induction rest as [|input rest IH]; intros acc; simpl; [reflexivity|].
  rewrite IH. lia.
Qed.

(** With every input static along the axis the output is the bare concat:
    no size annotation, a static axis whose extent is the sum of the
    inputs' extents.  The builder has nevertheless received one extent
    instruction per input and one addition per input after the first. *)
Lemma Compile_static (operand_shape : XlaOp -> option Shape.t) (axis : Z)
    (first : XlaOp * Shape.t) (rest : list (XlaOp * Shape.t)) (b : XlaBuilder) :
  Forall (fun input => operand_shape (fst input) = Some (snd input)) (first :: rest) ->
  Forall (in_range axis) (first :: rest) ->
  existsb (dynamic_along axis) (first :: rest) = false ->
  let concat := HloConcatenate (map fst (first :: rest)) axis in
  exists b' total s,
    Compile (Context (with_shapes (first :: rest)) axis b) = Done concat b'
    /\ attached_extent concat = None
    /\ sum_extents (map snd (first :: rest)) axis = Some total
    /\ GetShape operand_shape concat = Some s
    /\ Shape.dimensions s axis = Some total
    /\ Shape.is_dynamic_dimension s axis = Some false
    /\ List.length b'
       = (List.length b + 1 + (2 * List.length rest + 1))%nat.
Proof.
  intros Hshape Hrange Hstatic concat.
  rewrite (Compile_in_range _ _ _ b Hrange), Hstatic. cbv zeta.
  destruct (GetShape_concat _ _ _ _ Hshape Hrange)
    as (total & s & Htotal & Hs & _ & Hdim & Hflag).
  eexists. exists total, s. split; [reflexivity|].
  repeat (split; [assumption || reflexivity|]).
  rewrite length_app. cbn [List.length]. rewrite fold_emits_length. lia.
Qed.

(** C3, at the inputs [4, 8] and [6, 8] on axis 0: the output is the bare
    concat, of static shape [10, 8] and without a size annotation, but the
    builder has been handed two constants and an addition besides the
    concat. *)
Theorem Compile_static_emits_extent_instructions :
  Compile (Context (with_shapes static_inputs) 0 [])
  = Done (HloConcatenate [Param 0; Param 1] 0)
         [HloConcatenate [Param 0; Param 1] 0;
          HloConstant 4; HloConstant 6;
          HloAdd (HloConstant 4) (HloConstant 6)]
  /\ attached_extent (HloConcatenate [Param 0; Param 1] 0) = None
  /\ GetShape (sample_operand_shape static_inputs) (HloConcatenate [Param 0; Param 1] 0)
     = Some [static_dim 10; static_dim 8].
Proof. repeat split. Qed.

(** ** Rank and axis checks *)

Lemma valid_ranks_and_axis_true (shapes : list Shape.t) (axis : Z) :
  valid_ranks_and_axis shapes axis = true ->
  (forall s1 s2, In s1 shapes -> In s2 shapes -> Shape.rank s1 = Shape.rank s2)
  /\ (forall s, In s shapes -> 0 <= axis < Shape.rank s).
Proof.
  destruct shapes as [|first rest]; simpl; [intros _; split; contradiction|].
  intros H. apply andb_true_iff in H as [H Hranks].
  apply andb_true_iff in H as [H0 H1].
  apply Z.leb_le in H0. apply Z.ltb_lt in H1.
  rewrite forallb_forall in Hranks.
  assert (Hsame : forall s, first = s \/ In s rest -> Shape.rank s = Shape.rank first).
  { intros s [<-|Hin]; [reflexivity|]. now apply Z.eqb_eq, Hranks. }
  split.
  - intros s1 s2 H1' H2'. now rewrite (Hsame s1), (Hsame s2).
  - intros s Hin. rewrite (Hsame s Hin). lia.
Qed.

(** Past the checks the fragment runs to its end: no accessor is called
    outside a rank and no status is returned. *)
Lemma CombineAlongAxis_defined (ins : list (XlaOp * Shape.t)) (axis : Z)
    (b : XlaBuilder) :
  ins <> [] ->
  valid_ranks_and_axis (map snd ins) axis = true ->
  exists result b', CombineAlongAxis ins axis b = Done result b'.
Proof.
  intros Hne Hvalid. unfold CombineAlongAxis. rewrite Hvalid.
  apply valid_ranks_and_axis_true in Hvalid as [_ Hrange].
  destruct ins as [|first rest]; [contradiction|].
  rewrite Compile_in_range.
  - cbv zeta. destruct (existsb _ _); eauto.
  - apply Forall_forall. intros input Hin. apply Hrange. now apply in_map.
Qed.

(** C9: when two inputs differ in rank, or the axis is outside the rank of
    an input, [CombineAlongAxis] fails with a shape-inference error (which
    is not the backend-capability error); it yields no result and the
    builder is as it was. *)
Theorem CombineAlongAxis_rejects_bad_rank_or_axis
    (ins : list (XlaOp * Shape.t)) (axis : Z) (b : XlaBuilder) :
  (exists s1 s2, In s1 (map snd ins) /\ In s2 (map snd ins)
                 /\ Shape.rank s1 <> Shape.rank s2)
  \/ (exists s, In s (map snd ins) /\ ~ (0 <= axis < Shape.rank s)) ->
  CombineAlongAxis ins axis b = RequiresFailed ShapeInferenceError b
  /\ ShapeInferenceError <> BackendCapabilityError.
Proof.
  intros Hbad. split; [|discriminate].
  unfold CombineAlongAxis.
  destruct (valid_ranks_and_axis (map snd ins) axis) eqn:Hvalid; [|reflexivity].
  apply valid_ranks_and_axis_true in Hvalid as [Hranks Hrange].
  destruct Hbad as [(s1 & s2 & H1 & H2 & Hneq)|(s & Hin & Hout)].
  - elim Hneq. now apply Hranks.
  - elim Hout. now apply Hrange.
Qed.

(** * The properties at the sample inputs *)

(** The placeholder slot of [concat_placeholder_kdef] is widened. *)
Lemma GpuOpFilter_widens_placeholder_witness :
  exists c',
    nth_error (KernelDef.constraint
                 (snd (GpuOpFilter sample_gpu_types concat_placeholder_kdef))) 0
    = Some c'
    /\ AttrConstraint.name c' = "T"
    /\ AttrConstraint.types c' = sample_gpu_types
    /\ AttrConstraint.types c' <> [].
Proof.
  apply (GpuOpFilter_widens_placeholder sample_gpu_types concat_placeholder_kdef
           0%nat (constraint_of "T" [DT_FLOAT8_E4M3FN])).
  - unfold sample_gpu_types; discriminate.
  - reflexivity.
  - reflexivity.
  - reflexivity.
  - reflexivity.
Defined.

(** A ConcatV2 kernel whose [T] slot lists two types matches no rule. *)
Lemma GpuOpFilter_no_rule_noop_witness :
  snd (GpuOpFilter sample_gpu_types concat_two_types_kdef) = concat_two_types_kdef
  /\ snd (GpuOpFilter sample_gpu_types
            (snd (GpuOpFilter sample_gpu_types concat_two_types_kdef)))
     = snd (GpuOpFilter sample_gpu_types concat_two_types_kdef).
Proof.
  apply (GpuOpFilter_no_rule_noop sample_gpu_types concat_two_types_kdef).
  - simpl; discriminate.
  - simpl; discriminate.
  - intros _ c [<-|[<-|[]]] _; simpl; discriminate.
Defined.

(** The [dtype] slot of [const_kdef] allows strings after the filter. *)
Lemma GpuOpFilter_allows_string_witness :
  exists c',
    nth_error (KernelDef.constraint (snd (GpuOpFilter sample_gpu_types const_kdef))) 0
    = Some c'
    /\ AttrConstraint.name c' = "dtype"
    /\ In DT_STRING (AttrConstraint.types c').
Proof.
  apply (GpuOpFilter_allows_string sample_gpu_types const_kdef "dtype" 0%nat
           (constraint_of "dtype" [DT_FLOAT; DT_INT32])).
  - left; split; reflexivity.
  - reflexivity.
  - reflexivity.
Defined.

(** C8, the claim as worded fails: a slot that allows nothing and matches
    no rule still allows nothing after the filter, and the filter returns
    [true] all the same. *)
Lemma GpuOpFilter_keeps_empty_slot :
  fst (GpuOpFilter sample_gpu_types empty_slot_kdef) = true
  /\ exists c,
       In c (KernelDef.constraint (snd (GpuOpFilter sample_gpu_types empty_slot_kdef)))
       /\ AttrConstraint.types c = [].
Proof.
  split; [reflexivity|].
  exists (constraint_of "T" []). split; [now left|reflexivity].
Qed.

(** Non-emptiness is kept on [concat_placeholder_kdef]. *)
Lemma GpuOpFilter_preserves_nonempty_witness :
  fst (GpuOpFilter sample_gpu_types concat_placeholder_kdef) = true
  /\ (forall c',
        In c' (KernelDef.constraint
                 (snd (GpuOpFilter sample_gpu_types concat_placeholder_kdef))) ->
        AttrConstraint.types c' <> [])
  /\ (KernelDef.op concat_placeholder_kdef = "ConcatV2" ->
      forall i c,
        nth_error (KernelDef.constraint concat_placeholder_kdef) i = Some c ->
        AttrConstraint.name c = "T" ->
        AttrConstraint.types c = [DT_FLOAT8_E4M3FN] ->
        option_map AttrConstraint.types
          (nth_error (KernelDef.constraint
                        (snd (GpuOpFilter sample_gpu_types concat_placeholder_kdef))) i)
        = Some sample_gpu_types).
Proof.
  apply (GpuOpFilter_preserves_nonempty sample_gpu_types concat_placeholder_kdef).
  - unfold sample_gpu_types; discriminate.
  - intros c [<-|[<-|[]]]; simpl; discriminate.
Defined.

(** The two-type [T] slot of [concat_two_types_kdef] is left alone. *)
Lemma GpuOpFilter_ConcatV2_frame_witness :
  nth_error (KernelDef.constraint
               (snd (GpuOpFilter sample_gpu_types concat_two_types_kdef))) 0
  = Some (constraint_of "T" [DT_FLOAT8_E4M3FN; DT_FLOAT])
  /\ KernelDef.op (snd (GpuOpFilter sample_gpu_types concat_two_types_kdef))
     = KernelDef.op concat_two_types_kdef
  /\ KernelDef.device_type (snd (GpuOpFilter sample_gpu_types concat_two_types_kdef))
     = KernelDef.device_type concat_two_types_kdef
  /\ List.length (KernelDef.constraint
                    (snd (GpuOpFilter sample_gpu_types concat_two_types_kdef)))
     = List.length (KernelDef.constraint concat_two_types_kdef).
Proof.
  apply (GpuOpFilter_ConcatV2_frame sample_gpu_types concat_two_types_kdef 0%nat
           (constraint_of "T" [DT_FLOAT8_E4M3FN; DT_FLOAT])).
  - reflexivity.
  - reflexivity.
  - right; simpl; discriminate.
Defined.

Lemma dynamic_inputs_in_range : Forall (in_range 0) dynamic_inputs.
Proof. repeat constructor; unfold Shape.rank; simpl; lia. Qed.

(** The fold over the three inputs [<=20, 64], [2, 64], [<=10, 64]. *)
Lemma Compile_folds_left_to_right_witness :
  Compile (Context (with_shapes dynamic_inputs) 0 [])
  = Done (HloSetDimensionSize
            (HloConcatenate [Param 0; Param 1; Param 2] 0)
            (HloAdd (HloAdd (HloGetDimensionSize (Param 0) 0) (HloConstant 2))
                    (HloGetDimensionSize (Param 2) 0))
            0)
         [HloConcatenate [Param 0; Param 1; Param 2] 0;
          HloGetDimensionSize (Param 0) 0;
          HloConstant 2;
          HloAdd (HloGetDimensionSize (Param 0) 0) (HloConstant 2);
          HloGetDimensionSize (Param 2) 0;
          HloAdd (HloAdd (HloGetDimensionSize (Param 0) 0) (HloConstant 2))
                 (HloGetDimensionSize (Param 2) 0);
          HloSetDimensionSize
            (HloConcatenate [Param 0; Param 1; Param 2] 0)
            (HloAdd (HloAdd (HloGetDimensionSize (Param 0) 0) (HloConstant 2))
                    (HloGetDimensionSize (Param 2) 0))
            0].
Proof.
  apply (Compile_folds_left_to_right 0
           (Param 0, [dynamic_dim 20; static_dim 64])
           [(Param 1, [static_dim 2; static_dim 64]);
            (Param 2, [dynamic_dim 10; static_dim 64])] []).
  - exact dynamic_inputs_in_range.
  - reflexivity.
Defined.

(** Run-time sizes 5, 2 and 3 add up to 10. *)
Lemma Compile_dynamic_extent_witness :
  exists extent b' s,
    Compile (Context (with_shapes dynamic_inputs) 0 [])
    = Done (HloSetDimensionSize (HloConcatenate (map fst dynamic_inputs) 0) extent 0) b'
    /\ GetShape (sample_operand_shape dynamic_inputs)
         (HloSetDimensionSize (HloConcatenate (map fst dynamic_inputs) 0) extent 0)
       = Some s
    /\ Shape.is_dynamic_dimension s 0 = Some true
    /\ computed_extent dynamic_run_time
         (Compile (Context (with_shapes dynamic_inputs) 0 []))
       = Some (to_int32 10)
    /\ (- 2 ^ 31 <= 10 < 2 ^ 31 ->
        computed_extent dynamic_run_time
          (Compile (Context (with_shapes dynamic_inputs) 0 []))
        = Some 10).
Proof.
  apply (Compile_dynamic_extent (sample_operand_shape dynamic_inputs)
           dynamic_run_time 0 dynamic_inputs [] 10).
  - repeat constructor.
  - reflexivity.
  - reflexivity.
Defined.

(** C2, the claim as worded fails: next to a dynamic input of run-time
    size 5, a static input of extent [2^31] contributes the constant
    [-2^31], and the computed extent is not the sum of the actual
    extents. *)
Lemma Compile_extent_wraps :
  existsb (dynamic_along 0) wide_inputs = true
  /\ sum_actual_extents wide_run_time 0 wide_inputs = Some 2147483653
  /\ computed_extent wide_run_time (Compile (Context (with_shapes wide_inputs) 0 []))
     = Some (-2147483643)
  /\ computed_extent wide_run_time (Compile (Context (with_shapes wide_inputs) 0 []))
     <> sum_actual_extents wide_run_time 0 wide_inputs.
Proof.
  assert (Hsum : sum_actual_extents wide_run_time 0 wide_inputs = Some 2147483653)
    by reflexivity.
  assert (Hext : computed_extent wide_run_time
                   (Compile (Context (with_shapes wide_inputs) 0 []))
                 = Some (-2147483643)) by (vm_compute; reflexivity).
  repeat split; try assumption.
  rewrite Hsum, Hext. discriminate.
Qed.

(** Inputs of ranks 2 and 1 are rejected. *)
Lemma CombineAlongAxis_rejects_bad_rank_or_axis_witness :
  CombineAlongAxis mismatched_inputs 0 [] = RequiresFailed ShapeInferenceError []
  /\ ShapeInferenceError <> BackendCapabilityError.
Proof.
  apply (CombineAlongAxis_rejects_bad_rank_or_axis mismatched_inputs 0 []).
  left. exists [static_dim 4; static_dim 8], [static_dim 6].
  split; [now left|]. split; [right; now left|].
  unfold Shape.rank; simpl; lia.
Defined.

(** The two scenarios of the design document. *)
Example dynamic_scenario :
  computed_extent dynamic_run_time (CombineAlongAxis dynamic_inputs 0 []) = Some 10.
Proof. reflexivity. Qed.

Example out_of_range_axis_scenario :
  CombineAlongAxis static_inputs 2 [] = RequiresFailed ShapeInferenceError [].
Proof. reflexivity. Qed.

(** * Further properties of the kernel constraint filter *)

Section GpuBackendFurther.

Variable kGpuAllTypes : list DataType.

Lemma widen_constraint_name (c : AttrConstraint.t) :
  AttrConstraint.name (widen_constraint kGpuAllTypes c) = AttrConstraint.name c.
Proof.
  destruct (string_dec (AttrConstraint.name c) "T") as [Hn|Hn].
  - destruct (list_eq_dec DataType_eq_dec (AttrConstraint.types c)
                [DT_FLOAT8_E4M3FN]) as [Ht|Ht].
    + now rewrite (widen_constraint_placeholder _ _ Hn Ht).
    + now rewrite widen_constraint_other by now right.
  - now rewrite widen_constraint_other by now left.
Qed.

Lemma widen_constraint_idempotent (c : AttrConstraint.t) :
  widen_constraint kGpuAllTypes (widen_constraint kGpuAllTypes c)
  = widen_constraint kGpuAllTypes c.
Proof.
  destruct (string_dec (AttrConstraint.name c) "T") as [Hn|Hn].
  - destruct (list_eq_dec DataType_eq_dec (AttrConstraint.types c)
                [DT_FLOAT8_E4M3FN]) as [Ht|Ht].
    + rewrite (widen_constraint_placeholder _ _ Hn Ht).
      destruct (list_eq_dec DataType_eq_dec kGpuAllTypes [DT_FLOAT8_E4M3FN])
        as [Hk|Hk].
      * now apply widen_constraint_placeholder.
      * apply widen_constraint_other. now right.
    + rewrite (widen_constraint_other _ c) by now right.
      apply widen_constraint_other. now right.
  - rewrite (widen_constraint_other _ c) by now left.
    apply widen_constraint_other. now left.
Qed.

(** What the filter does to a definition whose op is neither [Const] nor
    [Assert]: it maps the ConcatV2 loop body over the slots, or nothing. *)
Lemma GpuOpFilter_without_string_rules (kdef : KernelDef.t) :
  KernelDef.op kdef <> "Const" ->
  KernelDef.op kdef <> "Assert" ->
  snd (GpuOpFilter kGpuAllTypes kdef)
  = KernelDef.mutable_constraint (widen_constraint kGpuAllTypes) kdef
  \/ snd (GpuOpFilter kGpuAllTypes kdef) = kdef.
Proof.
  intros H1 H2.
  destruct (string_dec (KernelDef.op kdef) "ConcatV2") as [H3|H3].
  - left. now rewrite GpuOpFilter_ConcatV2.
  - right. now rewrite GpuOpFilter_other_op.
Qed.

(** X1: on every definition whose op is neither [Const] nor [Assert] (the
    ConcatV2 ones with a placeholder slot included) a second run of the
    filter changes nothing. *)
Theorem GpuOpFilter_idempotent (kdef : KernelDef.t) :
  KernelDef.op kdef <> "Const" ->
  KernelDef.op kdef <> "Assert" ->
  snd (GpuOpFilter kGpuAllTypes (snd (GpuOpFilter kGpuAllTypes kdef)))
  = snd (GpuOpFilter kGpuAllTypes kdef).
Proof.
  intros H1 H2.
  destruct (string_dec (KernelDef.op kdef) "ConcatV2") as [H3|H3].
  - rewrite (GpuOpFilter_ConcatV2 _ _ H3). cbn [snd].
    rewrite GpuOpFilter_ConcatV2 by exact H3. cbn [snd].
    unfold KernelDef.mutable_constraint; simpl. f_equal.
    rewrite map_map. apply map_ext. intros c. apply widen_constraint_idempotent.
  - rewrite (GpuOpFilter_other_op _ kdef) by assumption. cbn [snd].
    now rewrite GpuOpFilter_other_op.
Qed.

(** X2: on such a definition the filter keeps the op, the device type and
    the slot names in their order: no slot is renamed, added, dropped or
    moved. *)
Theorem GpuOpFilter_keeps_slot_names (kdef : KernelDef.t) :
  KernelDef.op kdef <> "Const" ->
  KernelDef.op kdef <> "Assert" ->
  map AttrConstraint.name (KernelDef.constraint (snd (GpuOpFilter kGpuAllTypes kdef)))
  = map AttrConstraint.name (KernelDef.constraint kdef)
  /\ KernelDef.op (snd (GpuOpFilter kGpuAllTypes kdef)) = KernelDef.op kdef
  /\ KernelDef.device_type (snd (GpuOpFilter kGpuAllTypes kdef))
     = KernelDef.device_type kdef.
Proof.
  intros H1 H2.
  destruct (GpuOpFilter_without_string_rules kdef H1 H2) as [H|H]; rewrite H.
  - simpl. rewrite map_map. split; [|split; reflexivity].
    apply map_ext. intros c. apply widen_constraint_name.
  - repeat split.
Qed.

(** X3: when [kGpuAllTypes] contains [DT_FLOAT8_E4M3FN], the filter never
    takes a type away on such a definition: the slot at each position
    allows afterwards every type it allowed before. *)
Theorem GpuOpFilter_never_narrows
    (kdef : KernelDef.t) (i : nat) (c : AttrConstraint.t) :
  In DT_FLOAT8_E4M3FN kGpuAllTypes ->
  KernelDef.op kdef <> "Const" ->
  KernelDef.op kdef <> "Assert" ->
  nth_error (KernelDef.constraint kdef) i = Some c ->
  exists c',
    nth_error (KernelDef.constraint (snd (GpuOpFilter kGpuAllTypes kdef))) i = Some c'
    /\ forall t, In t (AttrConstraint.types c) -> In t (AttrConstraint.types c').
Proof.
  intros Hk H1 H2 Hnth.
  destruct (GpuOpFilter_without_string_rules kdef H1 H2) as [H|H]; rewrite H.
  - simpl. rewrite nth_error_map, Hnth. simpl. eexists; split; [reflexivity|].
    destruct (string_dec (AttrConstraint.name c) "T") as [Hn|Hn].
    + destruct (list_eq_dec DataType_eq_dec (AttrConstraint.types c)
                  [DT_FLOAT8_E4M3FN]) as [Ht|Ht].
      * rewrite (widen_constraint_placeholder _ _ Hn Ht), Ht.
        intros t [<-|[]]. exact Hk.
      * rewrite widen_constraint_other by now right. auto.
    + rewrite widen_constraint_other by now left. auto.
  - exists c. auto.
Qed.

(** X4: when [kGpuAllTypes] does not contain [DT_FLOAT8_E4M3FN], the
    ConcatV2 rule replaces rather than extends: a placeholder [T] slot no
    longer allows the one type it allowed before. *)
Theorem GpuOpFilter_drops_placeholder
    (kdef : KernelDef.t) (i : nat) (c : AttrConstraint.t) :
  ~ In DT_FLOAT8_E4M3FN kGpuAllTypes ->
  KernelDef.op kdef = "ConcatV2" ->
  nth_error (KernelDef.constraint kdef) i = Some c ->
  AttrConstraint.name c = "T" ->
  AttrConstraint.types c = [DT_FLOAT8_E4M3FN] ->
  exists c',
    nth_error (KernelDef.constraint (snd (GpuOpFilter kGpuAllTypes kdef))) i = Some c'
    /\ In DT_FLOAT8_E4M3FN (AttrConstraint.types c)
    /\ ~ In DT_FLOAT8_E4M3FN (AttrConstraint.types c').
Proof.
  intros Hk Hop Hnth Hn Ht.
  rewrite (GpuOpFilter_ConcatV2 _ _ Hop). simpl.
  rewrite nth_error_map, Hnth. simpl. eexists; split; [reflexivity|].
  rewrite (widen_constraint_placeholder _ _ Hn Ht), Ht.
  split; [now left|exact Hk].
Qed.

End GpuBackendFurther.

(** * Further properties of the concat kernel *)

(** ** The builder only grows *)

Lemma size_loop_prepend (ax : Z) (rest : list (XlaOp * StatusOr Shape.t)) :
  forall (st : SizeSum) (b e : XlaBuilder),
    size_loop ax rest st (b ++ e) = prepend b (size_loop ax rest st e).
Proof.
  induction rest as [|[input [shape|status]] rest IH]; intros st b e;
    cbn [size_loop]; try reflexivity.
  destruct st as [any sum initialized].
  destruct (Shape.is_dynamic_dimension shape ax) as [[|]|]; try reflexivity.
  - destruct initialized;
      cbn [GetDimensionSize emit accumulate size_sum_initialized negb
             dynamic_size_sum Add];
      rewrite <- ?app_assoc; apply IH.
  - destruct (Shape.dimensions shape ax) as [extent|]; try reflexivity.
    destruct initialized;
      cbn [ConstantR0 emit accumulate size_sum_initialized negb
             dynamic_size_sum Add any_input_dynamic];
      rewrite <- ?app_assoc; apply IH.
Qed.

(** X5: what the fragment produces does not depend on what the builder
    already holds.  Run on a builder [b], it gives the outcome of a run on
    an empty builder with [b] in front of the emitted instructions: same
    result or same status, and nothing in [b] is removed or changed. *)
Theorem Compile_builder_independent
    (ins : list (XlaOp * StatusOr Shape.t)) (ax : Z) (b : XlaBuilder) :
  Compile (Context ins ax b) = prepend b (Compile (Context ins ax [])).
Proof.
  rewrite !Compile_unfold. cbv zeta. cbn [app].
  rewrite size_loop_prepend.
  destruct (size_loop ax ins initial_locals [HloConcatenate (map fst ins) ax])
    as [st e|status e|]; cbn [prepend]; try reflexivity.
  destruct (any_input_dynamic st && (0 <? Z.of_nat (List.length ins)));
    cbn [prepend]; rewrite <- ?app_assoc; reflexivity.
Qed.

(** X6: the concat is emitted before any input shape is looked at.  In
    every run that ends in an output or in an early return, the builder is
    the initial one followed by the concat of all operand handles and then
    whatever else was emitted. *)
Theorem Compile_emits_concat_first
    (ins : list (XlaOp * StatusOr Shape.t)) (ax : Z) (b : XlaBuilder) :
  match Compile (Context ins ax b) with
  | Done _ b' | RequiresFailed _ b' =>
    exists emitted, b' = b ++ HloConcatenate (map fst ins) ax :: emitted
  | OutOfBounds => True
  end.
Proof.
  rewrite Compile_unfold. cbv zeta.
  rewrite <- (app_nil_r (b ++ [HloConcatenate (map fst ins) ax])).
  rewrite size_loop_prepend.
  destruct (size_loop ax ins initial_locals []) as [st e|status e|];
    cbn [prepend]; auto.
  - destruct (any_input_dynamic st && (0 <? Z.of_nat (List.length ins)));
      eexists; rewrite <- ?app_assoc; reflexivity.
  - eexists; rewrite <- ?app_assoc; reflexivity.
Qed.

(** ** Early return *)

Lemma size_loop_through_initialized (axis : Z) (pre : list (XlaOp * Shape.t)) :
  Forall (in_range axis) pre ->
  forall (tail : list (XlaOp * StatusOr Shape.t))
         (any : bool) (sum : XlaOp) (b : XlaBuilder),
    size_loop axis (with_shapes pre ++ tail) (Locals any sum true) b
    = size_loop axis tail
        (Locals (any || existsb (dynamic_along axis) pre)
                (fold_left (fun acc input => HloAdd acc (extent_of axis input))
                           pre sum)
                true)
        (b ++ fold_emits axis sum pre).
Proof.
  induction 1 as [|[input shape] pre Hin _ IH]; intros tail any sum b.
  - simpl. now rewrite orb_false_r, app_nil_r.
  - apply at_axis_Some in Hin as [[extent dyn] Hd]. cbn [snd] in Hd.
    destruct (at_axis_accessors _ _ _ Hd) as [Hdyn Hdim].
    destruct (at_axis_input axis input _ _ Hd) as [Halong Hext].
    cbn [with_shapes map app size_loop fst snd existsb fold_left fold_emits].
    rewrite Hdyn, Hdim, Halong, Hext. fold (with_shapes pre).
    cbn [Shape.is_dynamic Shape.size].
    destruct dyn.
    + cbn [GetDimensionSize emit accumulate size_sum_initialized negb
             dynamic_size_sum Add].
      rewrite IH, orb_true_r, <- !app_assoc. reflexivity.
    + cbn [ConstantR0 emit accumulate size_sum_initialized negb
             dynamic_size_sum Add any_input_dynamic].
      rewrite IH, orb_false_l, <- !app_assoc. reflexivity.
Qed.

Lemma size_loop_through (axis : Z) (pre : list (XlaOp * Shape.t))
    (tail : list (XlaOp * StatusOr Shape.t)) (b : XlaBuilder) :
  Forall (in_range axis) pre ->
  size_loop axis (with_shapes pre ++ tail) initial_locals b
  = size_loop axis tail (locals_after axis pre) (b ++ loop_emits axis pre).
Proof.
  intros H. destruct pre as [|[input shape] rest].
  - simpl. now rewrite app_nil_r.
  - inversion H as [|x l Hin Hrest]; subst.
    apply at_axis_Some in Hin as [[extent dyn] Hd]. cbn [snd] in Hd.
    destruct (at_axis_accessors _ _ _ Hd) as [Hdyn Hdim].
    destruct (at_axis_input axis input _ _ Hd) as [Halong Hext].
    unfold locals_after, loop_emits, fold_extents.
    cbn [with_shapes map app size_loop fst snd existsb].
    rewrite Hdyn, Hdim, Halong, Hext. fold (with_shapes rest).
    cbn [Shape.is_dynamic Shape.size].
    destruct dyn.
    + cbn [GetDimensionSize emit accumulate size_sum_initialized negb
             initial_locals].
      rewrite (size_loop_through_initialized _ _ Hrest), <- app_assoc.
      reflexivity.
    + cbn [ConstantR0 emit accumulate size_sum_initialized negb initial_locals
             any_input_dynamic].
      rewrite (size_loop_through_initialized _ _ Hrest), <- app_assoc.
      reflexivity.
Qed.

(** X7: when [InputXlaShape] fails for an input and the axis is within the
    rank of every input before it, the fragment returns that input's
    status and sets no output; the inputs after it are not looked at, and
    the builder keeps the concat and the instructions emitted for the
    inputs before it. *)
Theorem Compile_returns_first_shape_error
    (axis : Z) (pre : list (XlaOp * Shape.t)) (input : XlaOp) (status : Status)
    (post : list (XlaOp * StatusOr Shape.t)) (b : XlaBuilder) :
  Forall (in_range axis) pre ->
  Compile (Context (with_shapes pre ++ (input, ErrorStatus status) :: post) axis b)
  = RequiresFailed status
      (b ++ HloConcatenate (map fst pre ++ input :: map fst post) axis
         :: loop_emits axis pre).
Proof.
  intros Hpre. rewrite Compile_unfold. cbv zeta.
  rewrite (size_loop_through _ _ _ _ Hpre). cbn [size_loop].
  rewrite map_app, map_fst_with_shapes, <- app_assoc. reflexivity.
Qed.

(** ** Bounds *)

Lemma size_loop_out_of_range (axis : Z) (ins : list (XlaOp * Shape.t)) :
  ~ Forall (in_range axis) ins ->
  forall (st : SizeSum) (b : XlaBuilder),
    size_loop axis (with_shapes ins) st b = OutOfBounds.
Proof.
  induction ins as [|[input shape] ins IH]; intros Hnot st b.
  - elim Hnot. constructor.
  - cbn [with_shapes map size_loop fst snd]. fold (with_shapes ins).
    destruct (Shape.at_axis shape axis) as [d|] eqn:Hd.
    + destruct (at_axis_accessors _ _ _ Hd) as [Hdyn Hdim].
      rewrite Hdyn, Hdim.
      assert (Hrest : ~ Forall (in_range axis) ins).
      { intros Hall. apply Hnot. constructor; [|exact Hall].
        apply at_axis_Some. cbn [snd]. eauto. }
      destruct (Shape.is_dynamic d).
      * unfold GetDimensionSize, emit.
        destruct (accumulate _ _ _ _) as [st' b']. now apply IH.
      * unfold ConstantR0, emit.
        destruct (accumulate _ _ _ _) as [st' b']. now apply IH.
    + unfold Shape.is_dynamic_dimension. now rewrite Hd.
Qed.

(** X8: with every input shape available, the fragment ends in a [Shape]
    accessor called outside the rank exactly when the axis is not a valid
    index for some input.  Nothing else is checked: inputs of different
    ranks go through as long as the axis is within each of them. *)
Theorem Compile_out_of_bounds_iff
    (axis : Z) (ins : list (XlaOp * Shape.t)) (b : XlaBuilder) :
  Compile (Context (with_shapes ins) axis b) = OutOfBounds
  <-> ~ Forall (in_range axis) ins.
Proof.
  split.
  - intros Hout Hall. destruct ins as [|first rest].
    + discriminate Hout.
    + rewrite (Compile_in_range _ _ _ _ Hall) in Hout. cbv zeta in Hout.
      destruct (existsb _ _); discriminate Hout.
  - intros Hnot. rewrite Compile_unfold. cbv zeta.
    now rewrite (size_loop_out_of_range _ _ Hnot).
Qed.

(** ** When the result is annotated *)

(** X9: for inputs with the axis within every rank (none at all included)
    the fragment sets an output built on the concat of all operand handles
    in their order, and that output carries a size annotation exactly when
    some input is dynamic along the axis. *)
Theorem Compile_annotates_iff_dynamic
    (axis : Z) (ins : list (XlaOp * Shape.t)) (b : XlaBuilder) :
  Forall (in_range axis) ins ->
  exists result b',
    Compile (Context (with_shapes ins) axis b) = Done result b'
    /\ (result = HloConcatenate (map fst ins) axis
        \/ exists extent,
             result = HloSetDimensionSize (HloConcatenate (map fst ins) axis)
                                          extent axis)
    /\ (attached_extent result <> None
        <-> existsb (dynamic_along axis) ins = true).
Proof.
  intros Hall. destruct ins as [|first rest].
  - do 2 eexists. split; [reflexivity|]. split; [now left|].
    simpl. split; [congruence|discriminate].
  - rewrite (Compile_in_range _ _ _ _ Hall). cbv zeta.
    destruct (existsb (dynamic_along axis) (first :: rest)).
    + do 2 eexists. split; [reflexivity|]. split; [right; eauto|].
      simpl. split; [reflexivity|discriminate].
    + do 2 eexists. split; [reflexivity|]. split; [now left|].
      simpl. split; [congruence|discriminate].
Qed.

(** X10: for [n >= 1] inputs with the axis within every rank the fragment
    emits [2 n] instructions when every input is static along the axis
    (the concat, [n] extents, [n - 1] additions) and one more, the size
    annotation, when some input is dynamic. *)
Theorem Compile_instruction_count
    (axis : Z) (ins : list (XlaOp * Shape.t)) (b : XlaBuilder) :
  Forall (in_range axis) ins ->
  ins <> [] ->
  exists result b',
    Compile (Context (with_shapes ins) axis b) = Done result b'
    /\ List.length b'
       = (List.length b + 2 * List.length ins
          + if existsb (dynamic_along axis) ins then 1 else 0)%nat.
Proof.
  intros Hall Hne. destruct ins as [|first rest]; [contradiction|].
  rewrite (Compile_in_range _ _ _ _ Hall). cbv zeta.
  destruct (existsb (dynamic_along axis) (first :: rest));
    do 2 eexists; (split; [reflexivity|]);
    rewrite ?length_app; cbn [List.length];
    rewrite fold_emits_length; lia.
Qed.

(** ** The final test *)

Lemma accumulate_locals (any : bool) (st : SizeSum) (input_size : XlaOp)
    (b : XlaBuilder) :
  size_sum_initialized (fst (accumulate any st input_size b)) = true
  /\ any_input_dynamic (fst (accumulate any st input_size b)) = any
  /\ (dynamic_size_sum (fst (accumulate any st input_size b)) = input_size
      \/ dynamic_size_sum (fst (accumulate any st input_size b))
         = HloAdd (dynamic_size_sum st) input_size).
Proof.
  destruct st as [a s [|]]; cbn; auto.
Qed.

(** What holds of the locals whenever the loop runs to its end. *)
Lemma size_loop_locals (ax : Z) (rest : list (XlaOp * StatusOr Shape.t)) :
  forall (st st' : SizeSum) (b b' : XlaBuilder),
    size_loop ax rest st b = Done st' b' ->
    (any_input_dynamic st = true -> size_sum_initialized st = true) ->
    (size_sum_initialized st = true -> dynamic_size_sum st <> Invalid) ->
    (any_input_dynamic st' = true -> size_sum_initialized st' = true)
    /\ (size_sum_initialized st' = true -> dynamic_size_sum st' <> Invalid)
    /\ (size_sum_initialized st' = true ->
        size_sum_initialized st = true \/ rest <> []).
Proof.
  induction rest as [|[input [shape|status]] rest IH];
    intros st st' b b' Hrun Hany Hsum; cbn [size_loop] in Hrun;
    try discriminate Hrun.
  - injection Hrun as <- <-. auto.
  - assert (Hstep : forall any input_size e,
               input_size <> Invalid ->
               size_loop ax rest (fst (accumulate any st input_size e))
                         (snd (accumulate any st input_size e)) = Done st' b' ->
               (any_input_dynamic st' = true -> size_sum_initialized st' = true)
               /\ (size_sum_initialized st' = true -> dynamic_size_sum st' <> Invalid)
               /\ (size_sum_initialized st' = true ->
                   size_sum_initialized st = true
                   \/ (input, OkValue shape) :: rest <> [])).
    { intros any input_size e Hvalid Hrest.
      destruct (accumulate_locals any st input_size e) as (Hi & _ & Hs).
      destruct (IH _ _ _ _ Hrest) as (H1 & H2 & _).
      - intros _. exact Hi.
      - intros _. destruct Hs as [-> | ->]; [exact Hvalid|discriminate].
      - repeat split; auto. intros _. right. discriminate. }
    destruct (Shape.is_dynamic_dimension shape ax) as [[|]|];
      try discriminate Hrun.
    + unfold GetDimensionSize, emit in Hrun.
      destruct (accumulate true st _ _) as [st1 b1] eqn:Hacc.
      eapply (Hstep true (HloGetDimensionSize input ax)); [discriminate|].
      rewrite Hacc. exact Hrun.
    + destruct (Shape.dimensions shape ax) as [extent|]; try discriminate Hrun.
      unfold ConstantR0, emit in Hrun.
      destruct (accumulate (any_input_dynamic st) st _ _) as [st1 b1] eqn:Hacc.
      eapply (Hstep (any_input_dynamic st) (HloConstant (to_int32 extent)));
        [discriminate|].
      rewrite Hacc. exact Hrun.
Qed.

(** X11: the [N > 0] half of the final test never decides anything.
    Whenever the loop runs to its end with [any_input_dynamic] set, there
    is at least one input, the sum has been initialised, and it is not the
    default-constructed handle it started as. *)
Theorem size_loop_dynamic_nonempty (ax : Z) (ins : list (XlaOp * StatusOr Shape.t))
    (st : SizeSum) (b b' : XlaBuilder) :
  size_loop ax ins initial_locals b = Done st b' ->
  any_input_dynamic st = true ->
  0 < Z.of_nat (List.length ins)
  /\ size_sum_initialized st = true
  /\ dynamic_size_sum st <> Invalid.
Proof.
  intros Hrun Hdyn.
  destruct (size_loop_locals _ _ _ _ _ _ Hrun) as (Hany & Hsum & Hinit);
    try discriminate.
  split; [|split; [now apply Hany|now apply Hsum, Hany]].
  destruct (Hinit (Hany Hdyn)) as [H|H]; [discriminate|].
  destruct ins; [contradiction|]. simpl. lia.
Qed.

(** X12: an output with a size annotation is always the concat of all
    operand handles annotated on the concat axis, and the extent handed to
    [SetDimensionSize] is never the default-constructed handle. *)
Theorem Compile_annotation_initialized
    (ctx : XlaOpKernelContext) (result extent : XlaOp) (b' : XlaBuilder) :
  Compile ctx = Done result b' ->
  attached_extent result = Some extent ->
  extent <> Invalid
  /\ result = HloSetDimensionSize (HloConcatenate (input_data ctx) (axis ctx))
                                  extent (axis ctx).
Proof.
  destruct ctx as [ins ax b]. rewrite Compile_unfold. cbv zeta.
  unfold input_data. cbn [inputs axis builder].
  destruct (size_loop ax ins initial_locals _) as [st e|status e|] eqn:Hrun;
    try discriminate.
  destruct (size_loop_locals _ _ _ _ _ _ Hrun) as (Hany & Hsum & Hinit);
    [discriminate|discriminate|].
  destruct (any_input_dynamic st) eqn:Hdyn; cbn [andb].
  - destruct (0 <? Z.of_nat (List.length ins)).
    + intros [= <- <-] [= <-]. split; [now apply Hsum, Hany|reflexivity].
    + intros [= <- <-]. discriminate.
  - intros [= <- <-]. discriminate.
Qed.

(** ** What the fragment reads of a shape *)

Lemma axis_view_facts (axis : Z) (x y : XlaOp * Shape.t) :
  axis_view axis x = axis_view axis y ->
  axis_view axis x <> None ->
  fst x = fst y
  /\ extent_of axis x = extent_of axis y
  /\ dynamic_along axis x = dynamic_along axis y
  /\ in_range axis x /\ in_range axis y.
Proof.
  unfold axis_view, extent_of, dynamic_along, in_range,
    Shape.is_dynamic_dimension.
  destruct (Shape.at_axis (snd x) axis) as [[sx dx]|] eqn:Hx; [|congruence].
  destruct (Shape.at_axis (snd y) axis) as [[sy dy]|] eqn:Hy; [|discriminate].
  cbn [Shape.is_dynamic Shape.size option_map]. intros [= Hf Hd Hs] _.
  subst dy. rewrite Hf.
  assert (Hix : 0 <= axis < Shape.rank (snd x)) by (apply at_axis_Some; eauto).
  assert (Hiy : 0 <= axis < Shape.rank (snd y)) by (apply at_axis_Some; eauto).
  split; [reflexivity|]. split; [|auto].
  destruct dx; [reflexivity|now subst].
Qed.

Lemma same_view_rest (axis : Z) (r r' : list (XlaOp * Shape.t)) :
  Forall2 (fun x y => axis_view axis x = axis_view axis y
                      /\ axis_view axis x <> None) r r' ->
  map fst r = map fst r'
  /\ Forall (in_range axis) r /\ Forall (in_range axis) r'
  /\ existsb (dynamic_along axis) r = existsb (dynamic_along axis) r'
  /\ (forall acc,
        fold_left (fun acc input => HloAdd acc (extent_of axis input)) r acc
        = fold_left (fun acc input => HloAdd acc (extent_of axis input)) r' acc)
  /\ (forall acc, fold_emits axis acc r = fold_emits axis acc r').
Proof.
  induction 1 as [|x y r r' [Hview Hsome] _ (Hf & Hr & Hr' & He & Hl & Hm)].
  - repeat split; constructor.
  - destruct (axis_view_facts _ _ _ Hview Hsome) as (Hfx & Hex & Hdx & Hix & Hiy).
    cbn [map existsb fold_left fold_emits].
    rewrite Hf, Hfx, Hex, Hdx, He.
    repeat split; try (constructor; assumption).
    + intros acc. apply Hl.
    + intros acc. now rewrite Hm.
Qed.

(** X13: of each input the fragment reads the handle and the descriptor of
    the concat axis only, and of a dynamic axis not even the static bound.
    Two input lists that agree on that give the same result and the same
    instructions, whatever their other axes, ranks and bounds are. *)
Theorem Compile_reads_axis_only
    (axis : Z) (ins ins' : list (XlaOp * Shape.t)) (b : XlaBuilder) :
  Forall2 (fun x y => axis_view axis x = axis_view axis y
                      /\ axis_view axis x <> None) ins ins' ->
  Compile (Context (with_shapes ins) axis b)
  = Compile (Context (with_shapes ins') axis b).
Proof.
  intros H. pose proof (same_view_rest _ _ _ H) as (_ & Hall & Hall' & _).
  destruct H as [|x y r r' [Hview Hsome] Hrest]; [reflexivity|].
  destruct (axis_view_facts _ _ _ Hview Hsome) as (Hfx & Hex & Hdx & _).
  destruct (same_view_rest _ _ _ Hrest) as (Hf & _ & _ & He & Hl & Hm).
  rewrite (Compile_in_range _ _ _ _ Hall), (Compile_in_range _ _ _ _ Hall').
  cbv zeta. unfold fold_extents. cbn [map existsb].
  now rewrite Hf, Hfx, Hex, Hdx, He, Hl, Hm.
Qed.

(** * The further properties at the sample inputs *)

Lemma GpuOpFilter_idempotent_witness :
  snd (GpuOpFilter sample_gpu_types
         (snd (GpuOpFilter sample_gpu_types concat_placeholder_kdef)))
  = snd (GpuOpFilter sample_gpu_types concat_placeholder_kdef).
Proof.
  apply (GpuOpFilter_idempotent sample_gpu_types concat_placeholder_kdef);
    simpl; discriminate.
Defined.

Lemma GpuOpFilter_keeps_slot_names_witness :
  map AttrConstraint.name
      (KernelDef.constraint (snd (GpuOpFilter sample_gpu_types concat_placeholder_kdef)))
  = ["T"; "Tidx"]
  /\ KernelDef.op (snd (GpuOpFilter sample_gpu_types concat_placeholder_kdef))
     = "ConcatV2"
  /\ KernelDef.device_type (snd (GpuOpFilter sample_gpu_types concat_placeholder_kdef))
     = "XLA_GPU_JIT".
Proof.
  apply (GpuOpFilter_keeps_slot_names sample_gpu_types concat_placeholder_kdef);
    simpl; discriminate.
Defined.

Lemma GpuOpFilter_never_narrows_witness :
  exists c',
    nth_error (KernelDef.constraint
                 (snd (GpuOpFilter sample_gpu_types concat_placeholder_kdef))) 0
    = Some c'
    /\ forall t, In t [DT_FLOAT8_E4M3FN] -> In t (AttrConstraint.types c').
Proof.
  apply (GpuOpFilter_never_narrows sample_gpu_types concat_placeholder_kdef 0%nat
           (constraint_of "T" [DT_FLOAT8_E4M3FN])).
  - unfold sample_gpu_types. simpl. tauto.
  - simpl; discriminate.
  - simpl; discriminate.
  - reflexivity.
Defined.

Lemma GpuOpFilter_drops_placeholder_witness :
  exists c',
    nth_error (KernelDef.constraint
                 (snd (GpuOpFilter gpu_types_without_float8 concat_placeholder_kdef))) 0
    = Some c'
    /\ In DT_FLOAT8_E4M3FN [DT_FLOAT8_E4M3FN]
    /\ ~ In DT_FLOAT8_E4M3FN (AttrConstraint.types c').
Proof.
  apply (GpuOpFilter_drops_placeholder gpu_types_without_float8
           concat_placeholder_kdef 0%nat (constraint_of "T" [DT_FLOAT8_E4M3FN])).
  - unfold gpu_types_without_float8. simpl. intuition discriminate.
  - reflexivity.
  - reflexivity.
  - reflexivity.
  - reflexivity.
Defined.

Lemma Compile_returns_first_shape_error_witness :
  Compile (Context failing_inputs 0 [])
  = RequiresFailed (OtherError "no shape")
      [HloConcatenate [Param 0; Param 1; Param 2] 0;
       HloGetDimensionSize (Param 0) 0].
Proof.
  exact (Compile_returns_first_shape_error 0
           [(Param 0, [dynamic_dim 20; static_dim 64])]
           (Param 1) (OtherError "no shape")
           [(Param 2, OkValue [static_dim 6])] []
           ltac:(repeat constructor; unfold Shape.rank; simpl; lia)).
Defined.

Lemma Compile_annotates_iff_dynamic_witness :
  exists result b',
    Compile (Context (with_shapes dynamic_inputs) 0 []) = Done result b'
    /\ (result = HloConcatenate (map fst dynamic_inputs) 0
        \/ exists extent,
             result = HloSetDimensionSize (HloConcatenate (map fst dynamic_inputs) 0)
                                          extent 0)
    /\ (attached_extent result <> None
        <-> existsb (dynamic_along 0) dynamic_inputs = true).
Proof.
  apply (Compile_annotates_iff_dynamic 0 dynamic_inputs []).
  exact dynamic_inputs_in_range.
Defined.

Lemma Compile_instruction_count_witness :
  exists result b',
    Compile (Context (with_shapes static_inputs) 0 []) = Done result b'
    /\ List.length b' = 4%nat.
Proof.
  apply (Compile_instruction_count 0 static_inputs []).
  - repeat constructor; unfold Shape.rank; simpl; lia.
  - unfold static_inputs; discriminate.
Defined.

Lemma size_loop_dynamic_nonempty_witness :
  0 < Z.of_nat (List.length (with_shapes dynamic_inputs))
  /\ size_sum_initialized
       (Locals true
          (HloAdd (HloAdd (HloGetDimensionSize (Param 0) 0) (HloConstant 2))
                  (HloGetDimensionSize (Param 2) 0))
          true) = true
  /\ dynamic_size_sum
       (Locals true
          (HloAdd (HloAdd (HloGetDimensionSize (Param 0) 0) (HloConstant 2))
                  (HloGetDimensionSize (Param 2) 0))
          true) <> Invalid.
Proof.
  apply (size_loop_dynamic_nonempty 0 (with_shapes dynamic_inputs)
           (Locals true
              (HloAdd (HloAdd (HloGetDimensionSize (Param 0) 0) (HloConstant 2))
                      (HloGetDimensionSize (Param 2) 0))
              true)
           []
           [HloGetDimensionSize (Param 0) 0; HloConstant 2;
            HloAdd (HloGetDimensionSize (Param 0) 0) (HloConstant 2);
            HloGetDimensionSize (Param 2) 0;
            HloAdd (HloAdd (HloGetDimensionSize (Param 0) 0) (HloConstant 2))
                   (HloGetDimensionSize (Param 2) 0)]).
  - reflexivity.
  - reflexivity.
Defined.

Lemma Compile_annotation_initialized_witness :
  HloAdd (HloAdd (HloGetDimensionSize (Param 0) 0) (HloConstant 2))
         (HloGetDimensionSize (Param 2) 0) <> Invalid
  /\ HloSetDimensionSize (HloConcatenate [Param 0; Param 1; Param 2] 0)
       (HloAdd (HloAdd (HloGetDimensionSize (Param 0) 0) (HloConstant 2))
               (HloGetDimensionSize (Param 2) 0)) 0
     = HloSetDimensionSize (HloConcatenate [Param 0; Param 1; Param 2] 0)
         (HloAdd (HloAdd (HloGetDimensionSize (Param 0) 0) (HloConstant 2))
                 (HloGetDimensionSize (Param 2) 0)) 0.
Proof.
  eapply (Compile_annotation_initialized
            (Context (with_shapes dynamic_inputs) 0 [])).
  - reflexivity.
  - reflexivity.
Defined.

Lemma Compile_reads_axis_only_witness :
  Compile (Context (with_shapes dynamic_inputs) 0 [])
  = Compile (Context (with_shapes dynamic_inputs_reshaped) 0 []).
Proof.
  apply (Compile_reads_axis_only 0 dynamic_inputs dynamic_inputs_reshaped []).
  repeat constructor; discriminate.
Defined.

(** Inputs of ranks 2 and 1 go through the fragment when the axis is
    within both. *)
Example rank_mismatch_not_detected :
  Compile (Context (with_shapes mismatched_inputs) 0 [])
  = Done (HloConcatenate [Param 0; Param 1] 0)
         [HloConcatenate [Param 0; Param 1] 0; HloConstant 4; HloConstant 6;
          HloAdd (HloConstant 4) (HloConstant 6)].
Proof. reflexivity. Qed.
